(** * Identity-provider configuration ([package idp]): decode and validate

    A shallow embedding of [idp/idp.go] and proofs of its specification.

    The Go code is a [yaml.Unmarshaler]: [UnmarshalYAML] receives a callback
    [unmarshal func(interface{}) error] that decodes the record at hand into
    whatever structure it is given.  The embedding keeps that shape: the
    callback is a value of type [unmarshaler], the receiver [*idp] is passed
    in and returned, and Go's [error] results are [option error] ([None] is
    [nil]).  What the package imports (errgo, fmt's [%q]) is modelled in the
    modules that precede it; the tables of printable runes behind [%q],
    which come with the Go release, are a parameter ([UnicodeTables]). *)

From stdpp Require Import gmap strings list fin_maps.
From Stdlib Require Import Ascii String NArith.

Set Warnings "-register-all".

(** ** utf8 and strconv: Go-syntax quoting, the rendering behind [%q] *)
Module strconv.

(** The tables [isPrint16], [isNotPrint16], [isPrint32] and [isNotPrint32]
    of package strconv, which say which runes above U+00FF are printable.
    They are generated from the Unicode data of the Go release and are no
    part of the repository: what they hold is a parameter. *)
Class UnicodeTables : Type := { isPrintTable : N -> bool }.

Definition dquote : ascii := "034"%char.
Definition backslash : ascii := "092"%char.

Definition lowerhex : string := "0123456789abcdef".

(** [lowerhex[n]], for [n] below 16. *)
Definition hexdigit (n : N) : string :=
  match String.get (N.to_nat n) lowerhex with
  | Some c => String c ""
  | None => ""
  end.

(** [utf8.RuneError] (U+FFFD) and [utf8.MaxRune] (U+10FFFF). *)
Definition RuneError : N := 0xFFFD.
Definition MaxRune : N := 0x10FFFF.

Definition between (lo hi b : N) : bool := ((lo <=? b) && (b <=? hi))%N.

(** [s[n:]]. *)
Fixpoint skip (n : nat) (s : string) : string :=
  match n, s with
  | S n', String _ s' => skip n' s'
  | _, _ => s
  end.

(** [utf8.DecodeRuneInString]: the first rune of [s] and its width in
    bytes; [(RuneError, 1)] for a byte that starts no well-formed
    encoding (a stray continuation byte, an overlong or truncated form, a
    surrogate, a value above [MaxRune]), [(RuneError, 0)] for the empty
    string. *)
Definition DecodeRuneInString (s : string) : N * nat :=
  match s with
  | "" => (RuneError, 0)
  | String c0 t0 =>
      let s0 := N_of_ascii c0 in
      if (s0 <? 0x80)%N then (s0, 1)
      else if ((s0 <? 0xC2) || (0xF4 <? s0))%N then (RuneError, 1)
      else
        let sz := if (s0 <? 0xE0)%N then 2 else if (s0 <? 0xF0)%N then 3 else 4 in
        let lo := (if s0 =? 0xE0 then 0xA0 else if s0 =? 0xF0 then 0x90 else 0x80)%N in
        let hi := (if s0 =? 0xED then 0x9F else if s0 =? 0xF4 then 0x8F else 0xBF)%N in
        if String.length s <? sz then (RuneError, 1)
        else
          match t0 with
          | "" => (RuneError, 1)
          | String c1 t1 =>
              let s1 := N_of_ascii c1 in
              if negb (between lo hi s1) then (RuneError, 1)
              else if sz <=? 2 then
                (N.lor (N.shiftl (N.land s0 0x1F) 6) (N.land s1 0x3F), 2)
              else
                match t1 with
                | "" => (RuneError, 1)
                | String c2 t2 =>
                    let s2 := N_of_ascii c2 in
                    if negb (between 0x80 0xBF s2) then (RuneError, 1)
                    else if sz <=? 3 then
                      (N.lor (N.shiftl (N.land s0 0x0F) 12)
                         (N.lor (N.shiftl (N.land s1 0x3F) 6) (N.land s2 0x3F)), 3)
                    else
                      match t2 with
                      | "" => (RuneError, 1)
                      | String c3 _ =>
                          let s3 := N_of_ascii c3 in
                          if negb (between 0x80 0xBF s3) then (RuneError, 1)
                          else
                            (N.lor (N.shiftl (N.land s0 0x07) 18)
                               (N.lor (N.shiftl (N.land s1 0x3F) 12)
                                  (N.lor (N.shiftl (N.land s2 0x3F) 6)
                                     (N.land s3 0x3F))), 4)
                      end
                end
          end
  end.

(** [utf8.ValidRune]: not a surrogate and not above [MaxRune]. *)
Definition ValidRune (r : N) : bool :=
  ((r <? 0xD800) || ((0xDFFF <? r) && (r <=? MaxRune)))%N.

(** The continuation byte [tx | byte(r >> shift) & maskx]. *)
Definition continuation (r : N) (shift : N) : ascii :=
  ascii_of_N (N.lor 0x80 (N.land (N.shiftr r shift) 0x3F)).

Definition encode3 (r : N) : string :=
  String (ascii_of_N (N.lor 0xE0 (N.shiftr r 12)))
    (String (continuation r 6) (String (continuation r 0) "")).

(** [utf8.AppendRune]: the UTF-8 encoding of [r]; that of [RuneError] for a
    surrogate or a value above [MaxRune]. *)
Definition AppendRune (r : N) : string :=
  if (r <=? 0x7F)%N then String (ascii_of_N r) ""
  else if (r <=? 0x7FF)%N then
    String (ascii_of_N (N.lor 0xC0 (N.shiftr r 6))) (String (continuation r 0) "")
  else if ((MaxRune <? r) || between 0xD800 0xDFFF r)%N then encode3 RuneError
  else if (r <=? 0xFFFF)%N then encode3 r
  else
    String (ascii_of_N (N.lor 0xF0 (N.shiftr r 18)))
      (String (continuation r 12) (String (continuation r 6)
         (String (continuation r 0) ""))).

(** The hexadecimal digits of [r] from the shift [4 * n - 4] down to 0:
    the loop [for s := ...; s >= 0; s -= 4] of [appendEscapedRune]. *)
Fixpoint hexdigits (n : nat) (r : N) : string :=
  match n with
  | 0 => ""
  | S n' => hexdigit (N.land (N.shiftr r (4 * N.of_nat n')) 0xF) +:+ hexdigits n' r
  end.

Section quoting.
Context {tables : UnicodeTables}.

(** [strconv.IsPrint]: the fast test for Latin-1, then the tables. *)
Definition IsPrint (r : N) : bool :=
  if (r <=? 0xFF)%N then
    if between 0x20 0x7E r then true
    else if between 0xA1 0xFF r then negb (r =? 0xAD)%N
    else false
  else isPrintTable r.

(** [appendEscapedRune] with the double quote as the quote, and neither
    [ASCIIonly] nor [graphicOnly]: the quote and the backslash are
    backslashed, a printable rune is copied, a control character gets its
    named escape or [\xNN], any other rune [\uNNNN] or [\UNNNNNNNN]. *)
Definition appendEscapedRune (r : N) : string :=
  if ((r =? 34) || (r =? 92))%N then String backslash (String (ascii_of_N r) "")
  else if IsPrint r then AppendRune r
  else match r with
       | 7%N => "\a"
       | 8%N => "\b"
       | 12%N => "\f"
       | 10%N => "\n"
       | 13%N => "\r"
       | 9%N => "\t"
       | 11%N => "\v"
       | _ =>
           if ((r <? 32) || (r =? 127))%N then
             "\x" +:+ hexdigit (N.shiftr r 4) +:+ hexdigit (N.land r 0xF)
           else if negb (ValidRune r) then "\u" +:+ hexdigits 4 RuneError
           else if (r <? 0x10000)%N then "\u" +:+ hexdigits 4 r
           else "\U" +:+ hexdigits 8 r
       end.

(** The loop of [appendQuotedWith]: one rune of [s] at a time, a byte that
    starts no well-formed encoding as [\xNN].  Each turn takes at least one
    byte off [s], so [fuel] turns suffice when [fuel] is the length of
    [s]. *)
Fixpoint appendQuotedWith (fuel : nat) (s : string) : string :=
  match fuel, s with
  | S fuel', String c _ =>
      let b := N_of_ascii c in
      let '(r, width) := if (b <? 0x80)%N then (b, 1) else DecodeRuneInString s in
      (if (width =? 1) && (r =? RuneError)%N then
         "\x" +:+ hexdigit (N.shiftr b 4) +:+ hexdigit (N.land b 0xF)
       else appendEscapedRune r)
      +:+ appendQuotedWith fuel' (skip width s)
  | _, _ => ""
  end.

(** [strconv.Quote]. *)
Definition Quote (s : string) : string :=
  String dquote (appendQuotedWith (String.length s) s +:+ String dquote "").

End quoting.

End strconv.

(** ** fmt: the fragment of [Sprintf] that the package uses

    Arguments are Go strings (the only kind the package formats).  Verbs:
    [%q] (Go-quoted), [%s] and [%v] (as is), [%%]; no flags, width or
    precision.  Go's diagnostics for a verb it cannot apply, for a missing
    argument and for arguments left over are kept. *)
Module fmt.

Section formatting.
Context {tables : strconv.UnicodeTables}.

Definition printVerb (verb : ascii) (arg : string) : string :=
  if Ascii.eqb verb "q" then strconv.Quote arg
  else if Ascii.eqb verb "s" then arg
  else if Ascii.eqb verb "v" then arg
  else "%!" +:+ String verb ("(string=" +:+ arg +:+ ")").

Fixpoint extra (first : bool) (a : list string) : string :=
  match a with
  | [] => if first then "" else ")"
  | x :: a' =>
      (if first then "%!(EXTRA " else ", ") +:+ "string=" +:+ x +:+ extra false a'
  end.

Fixpoint Sprintf (format : string) (a : list string) : string :=
  match format with
  | "" => extra true a
  | String c f =>
      if Ascii.eqb c "%" then
        match f with
        | "" => "%!(NOVERB)" +:+ extra true a
        | String verb f' =>
            if Ascii.eqb verb "%" then String "%" (Sprintf f' a)
            else match a with
                 | [] => "%!" +:+ String verb ("(MISSING)" +:+ Sprintf f' [])
                 | x :: a' => printVerb verb x +:+ Sprintf f' a'
                 end
        end
      else String c (Sprintf f a)
  end.

End formatting.

End fmt.

(** ** errgo: errors with an underlying error and a (maskable) cause *)
Module errgo.

(** A Go [error] value: either errgo's own [Err], or an error made
    elsewhere (by the decode primitive, say), of which only its [Error()]
    text is observed.  [Err]'s location fields, which record the source
    position of the call, are left out. *)
Inductive error : Type :=
| Foreign (text : string)
| Err (Message_ : string) (Underlying_ : option error) (Cause_ : option error).

(** The method [Underlying] of [Err]. *)
Definition Underlying (e : error) : option error :=
  match e with
  | Foreign _ => None
  | Err _ u _ => u
  end.

(** [errgo.Cause]: the [Cause_] field when set, else the error itself. *)
Definition Cause (e : error) : error :=
  match e with
  | Err _ _ (Some c) => c
  | _ => e
  end.

(** The method [Error] of [Err]. *)
Fixpoint Error (e : error) : string :=
  match e with
  | Foreign text => text
  | Err m u _ =>
      match u with
      | None => if decide (m = "") then "<no error>" else m
      | Some e' => if decide (m = "") then Error e' else m +:+ ": " +:+ Error e'
      end
  end.

(** [errgo.NoteMask] with no [pass] function: the cause is masked. *)
Definition NoteMask (underlying : option error) (msg : string) : error :=
  Err msg underlying None.

(** [errgo.Newf]. *)
Definition Newf {tables : strconv.UnicodeTables} (f : string) (a : list string) : error :=
  Err (fmt.Sprintf f a) None None.

(** [errgo.Notef]. *)
Definition Notef {tables : strconv.UnicodeTables} (underlying : option error) (f : string) (a : list string) : error :=
  NoteMask underlying (fmt.Sprintf f a).

(** [errgo.Mask] with no [pass] function: [nil] stays [nil]. *)
Definition Mask (underlying : option error) : option error :=
  match underlying with
  | None => None
  | Some _ => Some (NoteMask underlying "")
  end.

End errgo.

(** ** Package idp *)
Module idp.
Import errgo.

Definition UbuntuSSO : string := "usso".
Definition UbuntuSSOOAuth : string := "usso_oauth".
Definition Agent : string := "agent".
Definition Keystone : string := "keystone".
Definition KeystoneUserpass : string := "keystone_userpass".
Definition KeystoneToken : string := "keystone_token".

(** [KeystoneParams] holds the parameters to use with a
    [KeystoneIdentityProvider]. *)
Record KeystoneParams : Type := {
  Name : string;
  Domain : string;
  Description : string;
  URL : string
}.

(** A [*KeystoneParams]: the nil pointer, or the structure pointed to.
    No function of the package writes through such a pointer, so the
    pointee stands for the pointer. *)
Definition ptr_KeystoneParams : Type := option KeystoneParams.

(** What the [Config interface{}] field holds in this package: nothing
    (the nil interface), or a [*KeystoneParams]. *)
Inductive config : Type :=
| Nil
| Ptr (p : ptr_KeystoneParams).

(** [IdentityProvider] describes the configuration of an identity
    provider.  ([Type] is reserved in Rocq: the field is [Type_].) *)
Record IdentityProvider : Type := {
  Type_ : string;
  Config : config
}.

(** The local [var t struct { Type string }] of [UnmarshalYAML]. *)
Record typeOnly : Type := { t_Type : string }.

(** Go's zero values, as [var] declarations and [IdentityProvider{}]
    produce them. *)
Definition zero_typeOnly : typeOnly := {| t_Type := "" |}.
Definition zero_KeystoneParams : KeystoneParams :=
  {| Name := ""; Domain := ""; Description := ""; URL := "" |}.
Definition zero_IdentityProvider : IdentityProvider :=
  {| Type_ := ""; Config := Nil |}.

(** The callback [unmarshal func(interface{}) error].  The package calls
    it on a pointer to a [typeOnly] and on a pointer to a
    [KeystoneParams]; each call may write the structure and returns an
    error or [nil]. *)
Record unmarshaler : Type := {
  into_typeOnly : typeOnly -> typeOnly * option error;
  into_KeystoneParams : KeystoneParams -> KeystoneParams * option error
}.

(** [UbuntuSSOIdentityProvider] is an identity provider that uses Ubuntu
    SSO.  (The three package-level variables are initialised once and
    never assigned by the package.) *)
Definition UbuntuSSOIdentityProvider : IdentityProvider :=
  {| Type_ := UbuntuSSO; Config := Nil |}.

(** [UbuntuSSOOAuthIdentityProvider] is an identity provider that uses
    Ubuntu SSO OAuth. *)
Definition UbuntuSSOOAuthIdentityProvider : IdentityProvider :=
  {| Type_ := UbuntuSSOOAuth; Config := Nil |}.

(** [AgentIdentityProvider] is an identity provider that uses the agent
    login mechanism. *)
Definition AgentIdentityProvider : IdentityProvider :=
  {| Type_ := Agent; Config := Nil |}.

(** [newKeystoneIdentityProvider] creates a new identity provider using a
    keystone service with the specified type. *)
Definition newKeystoneIdentityProvider (t : string) (p : ptr_KeystoneParams)
  : IdentityProvider :=
  {| Type_ := t; Config := Ptr p |}.

Definition KeystoneIdentityProvider (p : ptr_KeystoneParams) : IdentityProvider :=
  newKeystoneIdentityProvider Keystone p.

Definition KeystoneUserpassIdentityProvider (p : ptr_KeystoneParams) : IdentityProvider :=
  newKeystoneIdentityProvider KeystoneUserpass p.

Definition KeystoneTokenIdentityProvider (p : ptr_KeystoneParams) : IdentityProvider :=
  newKeystoneIdentityProvider KeystoneToken p.

(** [unmarshalKeystone] unmarshals the configuration provided by
    [unmarshal]; it returns Go's pair of a value and an error. *)
Definition unmarshalKeystone {tables : strconv.UnicodeTables} (t : string) (unmarshal : unmarshaler)
  : IdentityProvider * option error :=
  let '(p, err) := into_KeystoneParams unmarshal zero_KeystoneParams in
  match err with
  | Some _ => (zero_IdentityProvider, Mask err)
  | None =>
      if decide (Name p = "") then
        (zero_IdentityProvider, Some (Newf "name not specified" []))
      else if decide (URL p = "") then
        (zero_IdentityProvider, Some (Newf "url not specified" []))
      else (newKeystoneIdentityProvider t (Some p), None)
  end.

(** [UnmarshalYAML] unmarshals an [IdentityProvider] from configuration
    made accessible through [unmarshal].  The receiver [idp] is the value
    behind the pointer before the call; the result is the value behind it
    after the call, and the error returned. *)
Definition UnmarshalYAML {tables : strconv.UnicodeTables} (idp : IdentityProvider) (unmarshal : unmarshaler)
  : IdentityProvider * option error :=
  let '(t, err) := into_typeOnly unmarshal zero_typeOnly in
  match err with
  | Some _ => (idp, Some (Notef err "cannot unmarshal identity provider type" []))
  | None =>
      if decide (t_Type t = UbuntuSSO) then (UbuntuSSOIdentityProvider, None)
      else if decide (t_Type t = UbuntuSSOOAuth) then (UbuntuSSOOAuthIdentityProvider, None)
      else if decide (t_Type t = Agent) then (AgentIdentityProvider, None)
      else if decide (t_Type t = Keystone \/ t_Type t = KeystoneUserpass
                      \/ t_Type t = KeystoneToken) then
        let '(idp', err) := unmarshalKeystone (t_Type t) unmarshal in
        match err with
        | Some _ => (idp', Some (Notef err "cannot unmarshal keystone configuration" []))
        | None => (idp', None)
        end
      else
        (idp, Some (Newf "unrecognised identity provider type %q" [t_Type t]))
  end.

End idp.

(** ** The record being decoded, and the decode primitive over it

    The package never sees a record: it sees the callback.  This module
    gives the callback that the configuration-loading layer supplies, over a
    record written out as data, so that the statements about records can be
    run. *)
Module yaml.
Import errgo idp.

(** Modelled from the spec: the value of a field of the input record (a
    map of field name to value): a null, a scalar with its text, or a
    sequence, which stands for every value that is not a string. *)
Inductive value : Type :=
| Null
| Scalar (text : string)
| Sequence (items : list string).

(** Modelled from the spec: the generic structured record handed to the
    decoder, a mapping from field names to values; or a malformed input, a
    node of another kind (named by its tag). *)
Inductive node : Type :=
| Mapping (fields : gmap string value)
| Other (tag : string).

(** Modelled from the spec: the failure of a structural decode (a type
    mismatch on a field, a malformed record), an error made outside errgo. *)
Definition typeError (what : string) : error :=
  Foreign ("yaml: unmarshal errors: cannot unmarshal " +:+ what).

(** Modelled from the spec: decoding the field [key] into a Go string that
    holds [old].  An absent key leaves the string alone, a null zeroes it, a
    scalar sets it to its text, any other value is a type mismatch. *)
Definition decodeString (fields : gmap string value) (key : string) (old : string)
  : string * option error :=
  match fields !! key with
  | None => (old, None)
  | Some Null => ("", None)
  | Some (Scalar text) => (text, None)
  | Some (Sequence _) => (old, Some (typeError "!!seq into string"))
  end.

(** Modelled from the spec: the first failure met is the failure of the
    whole decode. *)
Definition firstError (e1 e2 : option error) : option error :=
  match e1 with
  | Some _ => e1
  | None => e2
  end.

(** Modelled from the spec: the primitive decoding into the structure with
    the single field [Type], whose wire name is [type]. *)
Definition decode_typeOnly (n : node) (t : typeOnly) : typeOnly * option error :=
  match n with
  | Mapping fields =>
      let '(ty, e) := decodeString fields "type" (t_Type t) in
      ({| t_Type := ty |}, e)
  | Other tag => (t, Some (typeError (tag +:+ " into struct")))
  end.

(** Modelled from the spec: the primitive decoding into a [KeystoneParams],
    by the wire names [name], [domain], [description] and [url] of its
    fields. *)
Definition decode_KeystoneParams (n : node) (p : KeystoneParams)
  : KeystoneParams * option error :=
  match n with
  | Mapping fields =>
      let '(name, e1) := decodeString fields "name" (Name p) in
      let '(domain, e2) := decodeString fields "domain" (Domain p) in
      let '(description, e3) := decodeString fields "description" (Description p) in
      let '(url, e4) := decodeString fields "url" (URL p) in
      ({| Name := name; Domain := domain; Description := description; URL := url |},
       firstError e1 (firstError e2 (firstError e3 e4)))
  | Other tag => (p, Some (typeError (tag +:+ " into idp.KeystoneParams")))
  end.

(** Modelled from the spec: the generic decode-into-structure primitive
    that the configuration-loading layer supplies as [unmarshal]; it is not
    part of the package. *)
Definition unmarshal (n : node) : unmarshaler :=
  {| into_typeOnly := decode_typeOnly n;
     into_KeystoneParams := decode_KeystoneParams n |}.

End yaml.

Import errgo idp.

(** ** Vocabulary of the specification *)

(** The three discriminants without payload, and the keystone family. *)
Definition singletonType (ty : string) : Prop :=
  ty = UbuntuSSO \/ ty = UbuntuSSOOAuth \/ ty = Agent.

Definition keystoneFamily (ty : string) : Prop :=
  ty = Keystone \/ ty = KeystoneUserpass \/ ty = KeystoneToken.

Definition recognised (ty : string) : Prop :=
  singletonType ty \/ keystoneFamily ty.

(** The record behind [unmarshal] has discriminant [ty]: decoding its
    [type] field alone succeeds and yields [ty] (the empty string when the
    field is absent). *)
Definition discriminant (unmarshal : unmarshaler) (ty : string) : Prop :=
  into_typeOnly unmarshal zero_typeOnly = ({| t_Type := ty |}, None).

(** The record behind [unmarshal] decodes structurally to the payload [p]. *)
Definition payload (unmarshal : unmarshaler) (p : KeystoneParams) : Prop :=
  into_KeystoneParams unmarshal zero_KeystoneParams = (p, None).

(** The structural decode behind [unmarshal] fails with [cause], either on
    the [type] field or, for a keystone-family record, on the payload. *)
Definition typeDecodeFails (unmarshal : unmarshaler) (cause : error) : Prop :=
  exists t, into_typeOnly unmarshal zero_typeOnly = (t, Some cause).

Definition payloadDecodeFails (unmarshal : unmarshaler) (cause : error) : Prop :=
  exists ty p, discriminant unmarshal ty /\ keystoneFamily ty /\
    into_KeystoneParams unmarshal zero_KeystoneParams = (p, Some cause).

Definition structuralFailure (unmarshal : unmarshaler) (cause : error) : Prop :=
  typeDecodeFails unmarshal cause \/ payloadDecodeFails unmarshal cause.

(** A keystone-family record whose payload decodes but lacks [name] or
    [url]. *)
Definition fieldMissing (unmarshal : unmarshaler) : Prop :=
  exists ty p, discriminant unmarshal ty /\ keystoneFamily ty /\
    payload unmarshal p /\ (Name p = "" \/ URL p = "").

(** A record whose discriminant is not one of the six. *)
Definition unrecognisedType (unmarshal : unmarshaler) : Prop :=
  exists ty, discriminant unmarshal ty /\ ~ recognised ty.

(** The variant's field requirements: none for the singletons; for the
    keystone family the payload decodes with [name] and [url] non-empty. *)
Definition meetsRequirements (unmarshal : unmarshaler) (ty : string) : Prop :=
  keystoneFamily ty ->
  exists p, payload unmarshal p /\ Name p <> "" /\ URL p <> "".

(** [e] wraps [cause]: [cause] is reached from [e] through [Underlying]. *)
Inductive Wraps : error -> error -> Prop :=
| Wraps_here e cause :
    Underlying e = Some cause -> Wraps e cause
| Wraps_below e e' cause :
    Underlying e = Some e' -> Wraps e' cause -> Wraps e cause.

(** The error reported for a required field left out, as [UnmarshalYAML]
    returns it. *)
Definition MissingField {tables : strconv.UnicodeTables} (field : string) : error :=
  Notef (Some (Newf (field +:+ " not specified") []))
    "cannot unmarshal keystone configuration" [].

(** The error reported for a discriminant outside the closed set. *)
Definition UnrecognizedType {tables : strconv.UnicodeTables} (ty : string) : error :=
  Err ("unrecognised identity provider type " +:+ strconv.Quote ty) None None.

(** [contains sub s]: [sub] occurs in [s] as it stands ([strings.Contains]). *)
Fixpoint contains (sub s : string) : bool :=
  String.prefix sub s ||
  match s with
  | "" => false
  | String _ s' => contains sub s'
  end.

(** Strings that [%q] leaves as they are between the quotes: printable
    ASCII other than the double quote and the backslash. *)
Definition plainChar (c : ascii) : bool :=
  let r := N_of_ascii c in
  ((32 <=? r) && (r <=? 126) && negb (r =? 34) && negb (r =? 92))%N.

Fixpoint plain (s : string) : bool :=
  match s with
  | "" => true
  | String c s' => plainChar c && plain s'
  end.

(** How many errors [e] wraps, one under the other. *)
Fixpoint height (e : error) : nat :=
  match e with
  | Foreign _ => 0
  | Err _ u _ =>
      S (match u with
         | Some e' => height e'
         | None => 0
         end)
  end.

(** The field [key] of a record is absent or empty. *)
Definition absentOrEmpty (fields : gmap string yaml.value) (key : string) : Prop :=
  fields !! key = None \/ fields !! key = Some yaml.Null
  \/ fields !! key = Some (yaml.Scalar "").

(** ** Records used as examples *)

(** The tables with which the examples are run: they hold no rune.  The
    records of the examples are ASCII, for which no table is looked up. *)
#[global] Instance exampleTables : strconv.UnicodeTables :=
  {| strconv.isPrintTable := fun _ => false |}.


Definition quoted_type : string := "a" +:+ String strconv.dquote "b".

(** [a], U+00A0 (no-break space, bytes C2 A0), [b]. *)
Definition nbsp_type : string := "a" +:+ String "194" (String "160" "b").

(** [caf] and U+00E9 (e with acute accent, bytes C3 A9). *)
Definition cafe_type : string := "caf" +:+ String "195" (String "169" "").

(** [a], the byte FF, which starts no UTF-8 encoding, [b]. *)
Definition stray_byte_type : string := "a" +:+ String "255" "b".

Definition usso_record : yaml.node :=
  yaml.Mapping {[ "type" := yaml.Scalar "usso" ]}.

Definition idm_record : yaml.node :=
  yaml.Mapping (<[ "type" := yaml.Scalar "keystone" ]>
               (<[ "name" := yaml.Scalar "idm" ]>
               {[ "url" := yaml.Scalar "https://example.test" ]})).

Definition bare_keystone_record : yaml.node :=
  yaml.Mapping {[ "type" := yaml.Scalar "keystone" ]}.

Definition nameless_record : yaml.node :=
  yaml.Mapping (<[ "type" := yaml.Scalar "keystone_userpass" ]>
               {[ "url" := yaml.Scalar "https://example.test" ]}).

Definition urlless_record : yaml.node :=
  yaml.Mapping (<[ "type" := yaml.Scalar "keystone_token" ]>
               (<[ "name" := yaml.Scalar "idm" ]>
               {[ "url" := yaml.Scalar "" ]})).

Definition bogus_record : yaml.node :=
  yaml.Mapping {[ "type" := yaml.Scalar "bogus" ]}.

Definition quoted_record : yaml.node :=
  yaml.Mapping {[ "type" := yaml.Scalar quoted_type ]}.

Definition mistyped_record : yaml.node :=
  yaml.Mapping (<[ "type" := yaml.Scalar "keystone" ]>
               (<[ "name" := yaml.Scalar "idm" ]>
               {[ "url" := yaml.Sequence ["https://example.test"] ]})).

Definition sequence_node : yaml.node := yaml.Other "!!seq".

Definition domain_mistyped_fields : gmap string yaml.value :=
  <[ "type" := yaml.Scalar "keystone" ]> {[ "domain" := yaml.Sequence ["x"] ]}.

Definition domain_mistyped_record : yaml.node :=
  yaml.Mapping domain_mistyped_fields.

Definition agent_receiver : IdentityProvider := AgentIdentityProvider.

(** ** The claims that do not hold as they are written *)

(** A missing [url] reported whatever the state of [name]. *)
Definition missing_field_as_stated {tables : strconv.UnicodeTables} : Prop :=
  forall idp unmarshal ty p,
    discriminant unmarshal ty -> keystoneFamily ty -> payload unmarshal p ->
    (Name p = "" ->
     exists idp', UnmarshalYAML idp unmarshal = (idp', Some (MissingField "name"))) /\
    (URL p = "" ->
     exists idp', UnmarshalYAML idp unmarshal = (idp', Some (MissingField "url"))).

(** The message carrying every offending discriminant as it stands. *)
Definition unrecognised_verbatim_as_stated {tables : strconv.UnicodeTables} : Prop :=
  forall idp unmarshal ty,
    discriminant unmarshal ty -> ~ recognised ty ->
    exists idp' e, UnmarshalYAML idp unmarshal = (idp', Some e) /\
                   contains ty (Error e) = true.

(** The decode failure kept as the cause of the error returned. *)
Definition failure_kept_as_cause_as_stated {tables : strconv.UnicodeTables} : Prop :=
  forall idp unmarshal cause,
    structuralFailure unmarshal cause ->
    exists idp' e, UnmarshalYAML idp unmarshal = (idp', Some e) /\
                   Wraps e cause /\ Cause e = cause.

(** The missing-name error for every keystone-family record that has
    neither [name] nor [url], whatever else it holds. *)
Definition name_before_url_as_stated {tables : strconv.UnicodeTables} : Prop :=
  forall idp (fields : gmap string yaml.value) ty,
    fields !! "type" = Some (yaml.Scalar ty) -> keystoneFamily ty ->
    absentOrEmpty fields "name" -> absentOrEmpty fields "url" ->
    exists idp', UnmarshalYAML idp (yaml.unmarshal (yaml.Mapping fields))
                 = (idp', Some (MissingField "name")).

(** ** The outcomes of a call, and what a decoded provider looks like *)

(** The nine ways a call of [UnmarshalYAML] on the receiver [idp] ends,
    read off its branches and those of [unmarshalKeystone]: the value left
    in the receiver and the error returned. *)
Inductive outcome {tables : strconv.UnicodeTables} (idp : IdentityProvider) (unmarshal : unmarshaler)
  : IdentityProvider * option error -> Prop :=
| outcome_type_error t cause :
    into_typeOnly unmarshal zero_typeOnly = (t, Some cause) ->
    outcome idp unmarshal
      (idp, Some (Err "cannot unmarshal identity provider type" (Some cause) None))
| outcome_usso :
    discriminant unmarshal UbuntuSSO ->
    outcome idp unmarshal (UbuntuSSOIdentityProvider, None)
| outcome_usso_oauth :
    discriminant unmarshal UbuntuSSOOAuth ->
    outcome idp unmarshal (UbuntuSSOOAuthIdentityProvider, None)
| outcome_agent :
    discriminant unmarshal Agent ->
    outcome idp unmarshal (AgentIdentityProvider, None)
| outcome_payload_error ty p cause :
    discriminant unmarshal ty -> keystoneFamily ty ->
    into_KeystoneParams unmarshal zero_KeystoneParams = (p, Some cause) ->
    outcome idp unmarshal
      (zero_IdentityProvider,
       Some (Err "cannot unmarshal keystone configuration"
               (Some (Err "" (Some cause) None)) None))
| outcome_no_name ty p :
    discriminant unmarshal ty -> keystoneFamily ty -> payload unmarshal p ->
    Name p = "" ->
    outcome idp unmarshal (zero_IdentityProvider, Some (MissingField "name"))
| outcome_no_url ty p :
    discriminant unmarshal ty -> keystoneFamily ty -> payload unmarshal p ->
    Name p <> "" -> URL p = "" ->
    outcome idp unmarshal (zero_IdentityProvider, Some (MissingField "url"))
| outcome_keystone ty p :
    discriminant unmarshal ty -> keystoneFamily ty -> payload unmarshal p ->
    Name p <> "" -> URL p <> "" ->
    outcome idp unmarshal (newKeystoneIdentityProvider ty (Some p), None)
| outcome_unrecognised ty :
    discriminant unmarshal ty -> ~ recognised ty ->
    outcome idp unmarshal (idp, Some (UnrecognizedType ty)).

(** A provider as the data model wants it: a singleton discriminant with
    no payload, or a keystone-family discriminant with a payload, behind a
    pointer that is not nil, whose [Name] and [URL] are not empty. *)
Definition wellFormed (idp : IdentityProvider) : Prop :=
  (singletonType (Type_ idp) /\ Config idp = Nil) \/
  (keystoneFamily (Type_ idp) /\
   exists p, Config idp = Ptr (Some p) /\ Name p <> "" /\ URL p <> "").

(** The three texts with which the message of an error of [UnmarshalYAML]
    can begin. *)
Definition errorPrefixes : list string :=
  [ "cannot unmarshal identity provider type: ";
    "cannot unmarshal keystone configuration: ";
    "unrecognised identity provider type " ].

Definition hasErrorPrefix (text : string) : bool :=
  existsb (fun pre => String.prefix pre text) errorPrefixes.

(** The constructor of the package for a keystone-family discriminant. *)
Definition constructorFor (ty : string) (p : ptr_KeystoneParams)
  : option IdentityProvider :=
  if decide (ty = Keystone) then Some (KeystoneIdentityProvider p)
  else if decide (ty = KeystoneUserpass) then Some (KeystoneUserpassIdentityProvider p)
  else if decide (ty = KeystoneToken) then Some (KeystoneTokenIdentityProvider p)
  else None.

(** Records used as further examples. *)
Definition full_record : yaml.node :=
  yaml.Mapping (<[ "type" := yaml.Scalar "keystone_userpass" ]>
               (<[ "name" := yaml.Scalar "idm" ]>
               (<[ "domain" := yaml.Scalar "example" ]>
               (<[ "description" := yaml.Scalar "Example keystone" ]>
               {[ "url" := yaml.Scalar "https://example.test" ]})))).

Definition full_params : KeystoneParams :=
  {| Name := "idm"; Domain := "example"; Description := "Example keystone";
     URL := "https://example.test" |}.

Definition nameless_token_record : yaml.node :=
  yaml.Mapping (<[ "type" := yaml.Scalar "keystone_token" ]>
               {[ "url" := yaml.Scalar "https://example.test" ]}).

Definition usso_with_bad_payload : yaml.node :=
  yaml.Mapping (<[ "type" := yaml.Scalar "usso" ]>
               {[ "name" := yaml.Sequence ["a"; "b"] ]}).

(** ** Quoting and formatting *)

Lemma append_String c s t : String c s +:+ t = String c (s +:+ t).
Proof. reflexivity. Qed.

Lemma append_empty_l s : "" +:+ s = s.
Proof. reflexivity. Qed.

Lemma append_empty_r s : s +:+ "" = s.
Proof. induction s as [|c s IH]; [done|]. by rewrite append_String, IH. Qed.

Lemma skip_length n s : String.length (strconv.skip n s) <= String.length s.
Proof.
  revert s. induction n as [|n IH]; intros [|c s]; cbn; try lia.
  specialize (IH s). lia.
Qed.

(** A rune decoded from a string that is not empty is at least one byte
    wide. *)
Lemma DecodeRuneInString_width c s :
  1 <= snd (strconv.DecodeRuneInString (String c s)).
Proof.
  unfold strconv.DecodeRuneInString.
  repeat match goal with
         | |- context [match ?t with "" => _ | String _ _ => _ end] => destruct t
         | |- context [if ?b then _ else _] => destruct b
         end; cbn; lia.
Qed.

Section quoting_lemmas.
Context {tables : strconv.UnicodeTables}.

(** Fuel: the loop of [Quote] ends within as many turns as [s] has bytes,
    so that more fuel than the length of [s] changes nothing. *)
Lemma appendQuotedWith_fuel n m s :
  String.length s <= n -> String.length s <= m ->
  strconv.appendQuotedWith n s = strconv.appendQuotedWith m s.
Proof.
  revert m s. induction n as [|n IH]; intros m [|c s] Hn Hm; cbn in Hn, Hm;
    try lia; try (by destruct m).
  destruct m as [|m]; [lia|]. cbn [strconv.appendQuotedWith].
  assert (forall w, 1 <= w ->
            strconv.appendQuotedWith n (strconv.skip w (String c s))
            = strconv.appendQuotedWith m (strconv.skip w (String c s))) as Hskip.
  { intros [|w] Hw; [lia|]. cbn [strconv.skip].
    pose proof (skip_length w s). apply IH; lia. }
  destruct (N_of_ascii c <? 128)%N.
  - by rewrite (Hskip 1).
  - pose proof (DecodeRuneInString_width c s) as Hw.
    destruct (strconv.DecodeRuneInString (String c s)) as [r w]. cbn [snd] in Hw.
    by rewrite (Hskip w Hw).
Qed.

Lemma appendEscapedRune_plain c :
  plainChar c = true ->
  strconv.appendEscapedRune (N_of_ascii c) = String c "".
Proof.
  unfold plainChar, strconv.appendEscapedRune. cbv zeta.
  intros Hc. apply andb_prop in Hc as [Hc H92]. apply andb_prop in Hc as [Hc H34].
  apply andb_prop in Hc as [Hlo Hhi].
  apply negb_true_iff in H34, H92. rewrite H34, H92. cbn [orb].
  apply N.leb_le in Hlo, Hhi.
  assert (strconv.IsPrint (N_of_ascii c) = true) as ->.
  { unfold strconv.IsPrint, strconv.between.
    rewrite (proj2 (N.leb_le _ 255)) by lia.
    rewrite (proj2 (N.leb_le 32 _)), (proj2 (N.leb_le _ 126)) by lia. done. }
  unfold strconv.AppendRune. rewrite (proj2 (N.leb_le _ 127)) by lia.
  by rewrite ascii_N_embedding.
Qed.

Lemma appendQuotedWith_plain s :
  plain s = true -> strconv.appendQuotedWith (String.length s) s = s.
Proof.
  induction s as [|c s IH]; [done|].
  cbn [plain String.length strconv.appendQuotedWith].
  intros Hs. apply andb_prop in Hs as [Hc Hs].
  assert (N_of_ascii c <= 126)%N as Hhi.
  { unfold plainChar in Hc. cbv zeta in Hc.
    repeat (apply andb_prop in Hc as [Hc ?]). by apply N.leb_le. }
  rewrite (proj2 (N.ltb_lt _ 128)) by lia. cbn [Nat.eqb andb strconv.skip].
  assert ((N_of_ascii c =? strconv.RuneError)%N = false) as ->.
  { apply N.eqb_neq. unfold strconv.RuneError. lia. }
  by rewrite (appendEscapedRune_plain c Hc), IH.
Qed.

Lemma Quote_plain s :
  plain s = true ->
  strconv.Quote s = String strconv.dquote (s +:+ String strconv.dquote "").
Proof. intros Hs. unfold strconv.Quote. by rewrite appendQuotedWith_plain. Qed.

End quoting_lemmas.

Lemma prefix_append s t : String.prefix s (s +:+ t) = true.
Proof.
  induction s as [|c s IH]; [by destruct t|].
  rewrite append_String. cbn [String.prefix]. by destruct (ascii_dec c c).
Qed.

Lemma contains_append_l pre sub s :
  contains sub s = true -> contains sub (pre +:+ s) = true.
Proof.
  intros H. induction pre as [|c pre IH]; [done|].
  rewrite append_String. cbn [contains]. rewrite IH. apply orb_true_r.
Qed.

Lemma contains_middle pre sub post : contains sub (pre +:+ sub +:+ post) = true.
Proof.
  apply contains_append_l.
  assert (String.prefix sub (sub +:+ post) = true) as H by apply prefix_append.
  destruct (sub +:+ post); cbn [contains]; by rewrite H.
Qed.

(** The format of the unrecognised-type error prints its argument once,
    Go-quoted, after the fixed text. *)
Lemma Sprintf_unrecognised {tables : strconv.UnicodeTables} ty :
  fmt.Sprintf "unrecognised identity provider type %q" [ty]
  = "unrecognised identity provider type " +:+ strconv.Quote ty.
Proof. cbn. by rewrite append_empty_r. Qed.

(** ** The paths through [unmarshalKeystone] *)

Section unmarshalKeystone_paths.
Context {tables : strconv.UnicodeTables}.
Variables (t : string) (unmarshal : unmarshaler) (p : KeystoneParams).

Lemma unmarshalKeystone_decode_error cause :
  into_KeystoneParams unmarshal zero_KeystoneParams = (p, Some cause) ->
  unmarshalKeystone t unmarshal
  = (zero_IdentityProvider, Some (Err "" (Some cause) None)).
Proof. intros H. unfold unmarshalKeystone. by rewrite H. Qed.

Lemma unmarshalKeystone_no_name :
  payload unmarshal p -> Name p = "" ->
  unmarshalKeystone t unmarshal
  = (zero_IdentityProvider, Some (Err "name not specified" None None)).
Proof.
  intros H Hname. unfold unmarshalKeystone. rewrite H.
  by rewrite decide_True.
Qed.

Lemma unmarshalKeystone_no_url :
  payload unmarshal p -> Name p <> "" -> URL p = "" ->
  unmarshalKeystone t unmarshal
  = (zero_IdentityProvider, Some (Err "url not specified" None None)).
Proof.
  intros H Hname Hurl. unfold unmarshalKeystone. rewrite H.
  rewrite decide_False by done. by rewrite decide_True.
Qed.

Lemma unmarshalKeystone_ok :
  payload unmarshal p -> Name p <> "" -> URL p <> "" ->
  unmarshalKeystone t unmarshal = (newKeystoneIdentityProvider t (Some p), None).
Proof.
  intros H Hname Hurl. unfold unmarshalKeystone. rewrite H.
  by rewrite !decide_False.
Qed.
End unmarshalKeystone_paths.

(** ** The paths through [UnmarshalYAML] *)

Lemma keystoneFamily_not_singleton ty :
  keystoneFamily ty -> ty <> UbuntuSSO /\ ty <> UbuntuSSOOAuth /\ ty <> Agent.
Proof. by intros [-> | [-> | ->]]. Qed.

Section UnmarshalYAML_paths.
Context {tables : strconv.UnicodeTables}.
Variables (idp : IdentityProvider) (unmarshal : unmarshaler).

Lemma UnmarshalYAML_type_error t cause :
  into_typeOnly unmarshal zero_typeOnly = (t, Some cause) ->
  UnmarshalYAML idp unmarshal
  = (idp, Some (Err "cannot unmarshal identity provider type" (Some cause) None)).
Proof. intros H. unfold UnmarshalYAML. by rewrite H. Qed.

Lemma UnmarshalYAML_usso :
  discriminant unmarshal UbuntuSSO ->
  UnmarshalYAML idp unmarshal = (UbuntuSSOIdentityProvider, None).
Proof.
  intros H. unfold UnmarshalYAML. rewrite H. cbn [t_Type].
  by rewrite decide_True.
Qed.

Lemma UnmarshalYAML_usso_oauth :
  discriminant unmarshal UbuntuSSOOAuth ->
  UnmarshalYAML idp unmarshal = (UbuntuSSOOAuthIdentityProvider, None).
Proof.
  intros H. unfold UnmarshalYAML. rewrite H. cbn [t_Type].
  rewrite decide_False by done. by rewrite decide_True.
Qed.

Lemma UnmarshalYAML_agent :
  discriminant unmarshal Agent ->
  UnmarshalYAML idp unmarshal = (AgentIdentityProvider, None).
Proof.
  intros H. unfold UnmarshalYAML. rewrite H. cbn [t_Type].
  rewrite !(decide_False (P := Agent = _)) by done. by rewrite decide_True.
Qed.

Lemma UnmarshalYAML_keystone ty :
  discriminant unmarshal ty -> keystoneFamily ty ->
  UnmarshalYAML idp unmarshal
  = let '(idp', err) := unmarshalKeystone ty unmarshal in
    match err with
    | Some _ => (idp', Some (Err "cannot unmarshal keystone configuration" err None))
    | None => (idp', None)
    end.
Proof.
  intros H Hty. destruct (keystoneFamily_not_singleton ty Hty) as (? & ? & ?).
  unfold UnmarshalYAML. rewrite H. cbn [t_Type].
  rewrite !decide_False by done. by rewrite decide_True.
Qed.

Lemma UnmarshalYAML_unrecognised ty :
  discriminant unmarshal ty -> ~ recognised ty ->
  UnmarshalYAML idp unmarshal = (idp, Some (UnrecognizedType ty)).
Proof.
  intros H Hty. unfold UnmarshalYAML. rewrite H. cbn [t_Type].
  unfold recognised, singletonType, keystoneFamily in Hty.
  rewrite !decide_False by tauto.
  unfold Newf, UnrecognizedType. by rewrite Sprintf_unrecognised.
Qed.
End UnmarshalYAML_paths.

(** ** The decode primitive over records *)

Lemma decodeString_absent_or_empty (fields : gmap string yaml.value) key :
  fields !! key = None \/ fields !! key = Some yaml.Null
  \/ fields !! key = Some (yaml.Scalar "") ->
  yaml.decodeString fields key "" = ("", None).
Proof. unfold yaml.decodeString. by intros [-> | [-> | ->]]. Qed.

Lemma decodeString_scalar (fields : gmap string yaml.value) key text old :
  fields !! key = Some (yaml.Scalar text) ->
  yaml.decodeString fields key old = (text, None).
Proof. unfold yaml.decodeString. by intros ->. Qed.

Lemma record_discriminant (fields : gmap string yaml.value) ty :
  fields !! "type" = Some (yaml.Scalar ty) ->
  discriminant (yaml.unmarshal (yaml.Mapping fields)) ty.
Proof.
  intros H. unfold discriminant. cbn [yaml.unmarshal into_typeOnly yaml.decode_typeOnly].
  by rewrite (decodeString_scalar _ _ ty).
Qed.

Lemma record_without_type (fields : gmap string yaml.value) :
  fields !! "type" = None ->
  discriminant (yaml.unmarshal (yaml.Mapping fields)) "".
Proof.
  intros H. unfold discriminant. cbn [yaml.unmarshal into_typeOnly yaml.decode_typeOnly].
  unfold yaml.decodeString. by rewrite H.
Qed.

(** A record whose [name] is absent or empty decodes, when it decodes at
    all, to a payload whose [Name] is the empty string; likewise [url]. *)
Lemma record_payload_name (fields : gmap string yaml.value) p :
  payload (yaml.unmarshal (yaml.Mapping fields)) p ->
  fields !! "name" = None \/ fields !! "name" = Some yaml.Null
  \/ fields !! "name" = Some (yaml.Scalar "") ->
  Name p = "".
Proof.
  unfold payload. cbn [yaml.unmarshal into_KeystoneParams yaml.decode_KeystoneParams].
  cbn [Name Domain Description URL zero_KeystoneParams].
  intros H Hname. rewrite (decodeString_absent_or_empty _ _ Hname) in H.
  destruct (yaml.decodeString fields "domain" ""), (yaml.decodeString fields "description" ""),
    (yaml.decodeString fields "url" ""). by simplify_eq.
Qed.

Lemma record_payload_url (fields : gmap string yaml.value) p :
  payload (yaml.unmarshal (yaml.Mapping fields)) p ->
  fields !! "url" = None \/ fields !! "url" = Some yaml.Null
  \/ fields !! "url" = Some (yaml.Scalar "") ->
  URL p = "".
Proof.
  unfold payload. cbn [yaml.unmarshal into_KeystoneParams yaml.decode_KeystoneParams].
  cbn [Name Domain Description URL zero_KeystoneParams].
  intros H Hurl. rewrite (decodeString_absent_or_empty _ "url" Hurl) in H.
  destruct (yaml.decodeString fields "name" ""), (yaml.decodeString fields "domain" ""),
    (yaml.decodeString fields "description" ""). by simplify_eq.
Qed.

(** ** Error texts *)

Lemma MissingField_name_Error {tables : strconv.UnicodeTables} :
  Error (MissingField "name") = "cannot unmarshal keystone configuration: name not specified".
Proof. reflexivity. Qed.

Lemma MissingField_url_Error {tables : strconv.UnicodeTables} :
  Error (MissingField "url") = "cannot unmarshal keystone configuration: url not specified".
Proof. reflexivity. Qed.

Lemma UnrecognizedType_Error {tables : strconv.UnicodeTables} ty :
  Error (UnrecognizedType ty)
  = "unrecognised identity provider type " +:+ strconv.Quote ty.
Proof.
  unfold UnrecognizedType. cbn [Error]. rewrite decide_False; [done|].
  by rewrite append_String.
Qed.

Lemma Error_note msg cause :
  msg <> "" ->
  Error (Err msg (Some cause) None) = msg +:+ ": " +:+ Error cause.
Proof. intros H. cbn [Error]. by rewrite decide_False. Qed.

Lemma Error_mask cause : Error (Err "" (Some cause) None) = Error cause.
Proof. reflexivity. Qed.

(** The errors that [Newf], [Notef] and [Mask] make have no [Cause_]:
    errgo's [Cause] of such an error is the error itself, and what it wraps
    is reached through [Underlying]. *)
Lemma Cause_masked msg underlying :
  Cause (Err msg underlying None) = Err msg underlying None.
Proof. reflexivity. Qed.

(** An error is not the error it wraps, nor the one that one wraps. *)
Lemma Wraps_height e cause : Wraps e cause -> height cause < height e.
Proof.
  induction 1 as [e cause Hu | e e' cause Hu _ IH];
    destruct e as [|msg u c]; cbn in Hu; try done; subst u; cbn [height]; lia.
Qed.

Lemma Wraps_neq e cause : Wraps e cause -> e <> cause.
Proof. intros Hw ->. apply Wraps_height in Hw. lia. Qed.

(** ** [%q] beyond plain ASCII

    Whatever the tables: a rune of Latin-1 that is not printable is
    escaped, a printable one is copied, and a byte that starts no UTF-8
    encoding is written in hexadecimal. *)
Lemma Quote_latin1 {tables : strconv.UnicodeTables} :
  strconv.Quote nbsp_type
  = String strconv.dquote ("a\u00a0b" +:+ String strconv.dquote "") /\
  strconv.Quote cafe_type
  = String strconv.dquote (cafe_type +:+ String strconv.dquote "") /\
  strconv.Quote stray_byte_type
  = String strconv.dquote ("a\xffb" +:+ String strconv.dquote "").
Proof. by vm_compute. Qed.

(** ** Missing fields, on records

    The two validation failures read on a record as data: a keystone-family
    record that decodes, with [name] absent, null or empty, fails on
    [name]; with a [name] and with [url] absent, null or empty, on [url]. *)

Lemma record_missing_name {tables : strconv.UnicodeTables} idp (fields : gmap string yaml.value) ty p :
  fields !! "type" = Some (yaml.Scalar ty) -> keystoneFamily ty ->
  payload (yaml.unmarshal (yaml.Mapping fields)) p ->
  fields !! "name" = None \/ fields !! "name" = Some yaml.Null
  \/ fields !! "name" = Some (yaml.Scalar "") ->
  UnmarshalYAML idp (yaml.unmarshal (yaml.Mapping fields))
  = (zero_IdentityProvider, Some (MissingField "name")).
Proof.
  intros Hty Hk Hp Hname.
  rewrite (UnmarshalYAML_keystone idp _ ty (record_discriminant fields ty Hty) Hk).
  by rewrite (unmarshalKeystone_no_name ty _ p Hp (record_payload_name fields p Hp Hname)).
Qed.

Lemma record_missing_url {tables : strconv.UnicodeTables} idp (fields : gmap string yaml.value) ty p :
  fields !! "type" = Some (yaml.Scalar ty) -> keystoneFamily ty ->
  payload (yaml.unmarshal (yaml.Mapping fields)) p ->
  Name p <> "" ->
  fields !! "url" = None \/ fields !! "url" = Some yaml.Null
  \/ fields !! "url" = Some (yaml.Scalar "") ->
  UnmarshalYAML idp (yaml.unmarshal (yaml.Mapping fields))
  = (zero_IdentityProvider, Some (MissingField "url")).
Proof.
  intros Hty Hk Hp Hname Hurl.
  rewrite (UnmarshalYAML_keystone idp _ ty (record_discriminant fields ty Hty) Hk).
  by rewrite (unmarshalKeystone_no_url ty _ p Hp Hname (record_payload_url fields p Hp Hurl)).
Qed.

(** ** The claims *)

(** C1.  A record whose discriminant is one of the six recognised ones and
    which meets the field requirements of its variant decodes without
    error, and the [Type] of the provider obtained is that discriminant,
    exactly. *)
Theorem decode_recognised_type {tables : strconv.UnicodeTables} idp unmarshal ty :
  discriminant unmarshal ty -> recognised ty -> meetsRequirements unmarshal ty ->
  exists idp', UnmarshalYAML idp unmarshal = (idp', None) /\ Type_ idp' = ty.
Proof.
  intros Hd [[-> | [-> | ->]] | Hk] Hreq.
  - eexists. split; [by apply UnmarshalYAML_usso | done].
  - eexists. split; [by apply UnmarshalYAML_usso_oauth | done].
  - eexists. split; [by apply UnmarshalYAML_agent | done].
  - destruct (Hreq Hk) as (p & Hp & Hname & Hurl).
    exists (newKeystoneIdentityProvider ty (Some p)). split; [|done].
    rewrite (UnmarshalYAML_keystone idp unmarshal ty Hd Hk).
    by rewrite (unmarshalKeystone_ok ty unmarshal p).
Qed.

Lemma decode_recognised_type_witness :
  (discriminant (yaml.unmarshal idm_record) Keystone /\
   recognised Keystone /\
   meetsRequirements (yaml.unmarshal idm_record) Keystone) /\
  (exists idp', UnmarshalYAML agent_receiver (yaml.unmarshal idm_record) = (idp', None)
                /\ Type_ idp' = Keystone) /\
  (exists idp', UnmarshalYAML agent_receiver (yaml.unmarshal usso_record) = (idp', None)
                /\ Type_ idp' = UbuntuSSO).
Proof.
  assert (meetsRequirements (yaml.unmarshal idm_record) Keystone) as Hreq.
  { intros _.
    exists {| Name := "idm"; Domain := ""; Description := "";
              URL := "https://example.test" |}.
    split; [vm_compute; reflexivity | split; discriminate]. }
  assert (discriminant (yaml.unmarshal idm_record) Keystone) as Hd
    by (vm_compute; reflexivity).
  assert (recognised Keystone) as Hr by (right; left; reflexivity).
  split; [done|]. split.
  - exact (decode_recognised_type agent_receiver _ Keystone Hd Hr Hreq).
  - apply (decode_recognised_type agent_receiver _ UbuntuSSO).
    + vm_compute; reflexivity.
    + left; left; reflexivity.
    + intros [H | [H | H]]; discriminate H.
Defined.

(** C2, as amended.  For a keystone-family record whose payload decodes:
    an absent or empty [name] fails with the missing-field error naming
    [name]; an absent or empty [url], when [name] is there, fails with the
    one naming [url]; and a decode that succeeds has both non-empty and
    carries the payload as decoded, no default put in. *)
Theorem keystone_missing_field {tables : strconv.UnicodeTables} idp unmarshal ty p :
  discriminant unmarshal ty -> keystoneFamily ty -> payload unmarshal p ->
  (Name p = "" ->
   UnmarshalYAML idp unmarshal = (zero_IdentityProvider, Some (MissingField "name"))) /\
  (Name p <> "" -> URL p = "" ->
   UnmarshalYAML idp unmarshal = (zero_IdentityProvider, Some (MissingField "url"))) /\
  (forall idp', UnmarshalYAML idp unmarshal = (idp', None) ->
   Name p <> "" /\ URL p <> "" /\ Config idp' = Ptr (Some p)).
Proof.
  intros Hd Hk Hp. rewrite (UnmarshalYAML_keystone idp unmarshal ty Hd Hk).
  split; [|split].
  - intros Hname. by rewrite (unmarshalKeystone_no_name ty unmarshal p).
  - intros Hname Hurl. by rewrite (unmarshalKeystone_no_url ty unmarshal p).
  - intros idp'. destruct (decide (Name p = "")) as [Hname | Hname].
    { by rewrite (unmarshalKeystone_no_name ty unmarshal p). }
    destruct (decide (URL p = "")) as [Hurl | Hurl].
    { by rewrite (unmarshalKeystone_no_url ty unmarshal p). }
    rewrite (unmarshalKeystone_ok ty unmarshal p) by done.
    intros [= <-]. done.
Qed.

Lemma keystone_missing_field_witness :
  (discriminant (yaml.unmarshal nameless_record) KeystoneUserpass /\
   keystoneFamily KeystoneUserpass /\
   payload (yaml.unmarshal nameless_record)
     {| Name := ""; Domain := ""; Description := ""; URL := "https://example.test" |}) /\
  UnmarshalYAML agent_receiver (yaml.unmarshal nameless_record)
  = (zero_IdentityProvider, Some (MissingField "name")) /\
  (discriminant (yaml.unmarshal urlless_record) KeystoneToken /\
   keystoneFamily KeystoneToken /\
   payload (yaml.unmarshal urlless_record)
     {| Name := "idm"; Domain := ""; Description := ""; URL := "" |}) /\
  UnmarshalYAML agent_receiver (yaml.unmarshal urlless_record)
  = (zero_IdentityProvider, Some (MissingField "url")).
Proof.
  assert (discriminant (yaml.unmarshal nameless_record) KeystoneUserpass) as Hd1
    by (vm_compute; reflexivity).
  assert (keystoneFamily KeystoneUserpass) as Hk1 by (right; left; reflexivity).
  assert (payload (yaml.unmarshal nameless_record)
            {| Name := ""; Domain := ""; Description := "";
               URL := "https://example.test" |}) as Hp1
    by (vm_compute; reflexivity).
  assert (discriminant (yaml.unmarshal urlless_record) KeystoneToken) as Hd2
    by (vm_compute; reflexivity).
  assert (keystoneFamily KeystoneToken) as Hk2 by (right; right; reflexivity).
  assert (payload (yaml.unmarshal urlless_record)
            {| Name := "idm"; Domain := ""; Description := ""; URL := "" |}) as Hp2
    by (vm_compute; reflexivity).
  split; [done|]. split.
  - apply (keystone_missing_field agent_receiver _ _ _ Hd1 Hk1 Hp1). reflexivity.
  - split; [done|].
    apply (keystone_missing_field agent_receiver _ _ _ Hd2 Hk2 Hp2);
      [discriminate | reflexivity].
Defined.

(** C2, as written, fails on the record that has only [type: keystone]:
    its [url] is absent, yet the error names [name]; and so whatever the
    tables of printable runes. *)
Lemma missing_url_hidden_by_missing_name :
  (discriminant (yaml.unmarshal bare_keystone_record) Keystone /\
   keystoneFamily Keystone /\
   payload (yaml.unmarshal bare_keystone_record) zero_KeystoneParams /\
   URL zero_KeystoneParams = "") /\
  UnmarshalYAML zero_IdentityProvider (yaml.unmarshal bare_keystone_record)
  = (zero_IdentityProvider, Some (MissingField "name")) /\
  MissingField "name" <> MissingField "url" /\
  ~ (exists tables, @missing_field_as_stated tables).
Proof.
  assert (discriminant (yaml.unmarshal bare_keystone_record) Keystone) as Hd
    by (vm_compute; reflexivity).
  assert (keystoneFamily Keystone) as Hk by (left; reflexivity).
  assert (payload (yaml.unmarshal bare_keystone_record) zero_KeystoneParams) as Hp
    by (vm_compute; reflexivity).
  assert (UnmarshalYAML zero_IdentityProvider (yaml.unmarshal bare_keystone_record)
          = (zero_IdentityProvider, Some (MissingField "name"))) as Hrun
    by (vm_compute; reflexivity).
  split; [done|]. split; [done|]. split; [discriminate|].
  intros [tables Hclaim].
  destruct (Hclaim zero_IdentityProvider _ _ _ Hd Hk Hp) as [_ Hurl].
  destruct (Hurl eq_refl) as [idp' Hidp'].
  assert (UnmarshalYAML zero_IdentityProvider (yaml.unmarshal bare_keystone_record)
          = (zero_IdentityProvider, Some (MissingField "name"))) as Hrun'
    by (vm_compute; reflexivity).
  rewrite Hrun' in Hidp'. discriminate Hidp'.
Qed.

(** C3, as amended.  A record whose discriminant is not one of the six
    fails, the receiver is left as it was (no provider is put in its
    place), and the message of the error is the fixed text followed by the
    discriminant as [%q] prints it ([strconv.Quote]): for a discriminant
    made of printable ASCII without double quote or backslash, that is the
    discriminant as it stands between double quotes ([bogus] gives
    ["bogus"]). *)
Theorem unrecognised_type_rejected {tables : strconv.UnicodeTables} idp unmarshal ty :
  discriminant unmarshal ty -> ~ recognised ty ->
  UnmarshalYAML idp unmarshal = (idp, Some (UnrecognizedType ty)) /\
  Error (UnrecognizedType ty)
  = "unrecognised identity provider type " +:+ strconv.Quote ty /\
  (plain ty = true ->
   strconv.Quote ty = String strconv.dquote (ty +:+ String strconv.dquote "") /\
   contains ty (Error (UnrecognizedType ty)) = true).
Proof.
  intros Hd Hty. split; [by apply UnmarshalYAML_unrecognised|].
  split; [apply UnrecognizedType_Error|].
  intros Hplain. split; [by apply Quote_plain|].
  rewrite UnrecognizedType_Error, (Quote_plain ty Hplain).
  apply (contains_middle
           ("unrecognised identity provider type " +:+ String strconv.dquote "")
           ty (String strconv.dquote "")).
Qed.

Lemma unrecognised_type_rejected_witness :
  (discriminant (yaml.unmarshal bogus_record) "bogus" /\ ~ recognised "bogus"
   /\ plain "bogus" = true) /\
  UnmarshalYAML agent_receiver (yaml.unmarshal bogus_record)
  = (agent_receiver, Some (UnrecognizedType "bogus")) /\
  Error (UnrecognizedType "bogus")
  = "unrecognised identity provider type " +:+ strconv.Quote "bogus" /\
  strconv.Quote "bogus"
  = String strconv.dquote ("bogus" +:+ String strconv.dquote "") /\
  contains "bogus" (Error (UnrecognizedType "bogus")) = true.
Proof.
  assert (discriminant (yaml.unmarshal bogus_record) "bogus") as Hd
    by (vm_compute; reflexivity).
  assert (~ recognised "bogus") as Hty.
  { intros [[H | [H | H]] | [H | [H | H]]]; discriminate H. }
  assert (plain "bogus" = true) as Hplain by reflexivity.
  split; [done|].
  destruct (unrecognised_type_rejected agent_receiver _ _ Hd Hty) as (Hrun & Htext & Hq).
  destruct (Hq Hplain) as [Hquote Hcontains]. done.
Defined.

(** C3, as written, fails on a discriminant that holds a double quote: the
    message carries it escaped, not as it stands, whatever the tables of
    printable runes. *)
Lemma quoted_type_not_verbatim :
  (discriminant (yaml.unmarshal quoted_record) quoted_type /\
   ~ recognised quoted_type) /\
  UnmarshalYAML zero_IdentityProvider (yaml.unmarshal quoted_record)
  = (zero_IdentityProvider, Some (UnrecognizedType quoted_type)) /\
  Error (UnrecognizedType quoted_type)
  = "unrecognised identity provider type "
    +:+ String strconv.dquote
          ("a" +:+ String strconv.backslash
                     (String strconv.dquote ("b" +:+ String strconv.dquote ""))) /\
  contains quoted_type (Error (UnrecognizedType quoted_type)) = false /\
  ~ (exists tables, @unrecognised_verbatim_as_stated tables).
Proof.
  assert (discriminant (yaml.unmarshal quoted_record) quoted_type) as Hd
    by (vm_compute; reflexivity).
  assert (~ recognised quoted_type) as Hty.
  { intros [[H | [H | H]] | [H | [H | H]]]; discriminate H. }
  assert (UnmarshalYAML zero_IdentityProvider (yaml.unmarshal quoted_record)
          = (zero_IdentityProvider, Some (UnrecognizedType quoted_type))) as Hrun
    by (vm_compute; reflexivity).
  assert (contains quoted_type (Error (UnrecognizedType quoted_type)) = false) as Hno
    by (vm_compute; reflexivity).
  split; [done|]. split; [done|]. split; [vm_compute; reflexivity|]. split; [done|].
  intros [tables Hclaim].
  destruct (Hclaim zero_IdentityProvider _ _ Hd Hty) as (idp' & e & He & Hin).
  assert (UnmarshalYAML zero_IdentityProvider (yaml.unmarshal quoted_record)
          = (zero_IdentityProvider, Some (UnrecognizedType quoted_type))) as Hrun'
    by (vm_compute; reflexivity).
  assert (contains quoted_type (Error (UnrecognizedType quoted_type)) = false) as Hno'
    by (vm_compute; reflexivity).
  rewrite Hrun' in He. injection He as <- <-. rewrite Hno' in Hin. discriminate Hin.
Qed.

(** C4.  The record [type: keystone, name: idm, url: https://example.test]
    decodes without error, whatever the receiver held, to the keystone
    provider whose payload has these [Name] and [URL] and empty [Domain]
    and [Description]. *)
Theorem decode_idm_record {tables : strconv.UnicodeTables} idp :
  UnmarshalYAML idp (yaml.unmarshal idm_record)
  = ({| Type_ := "keystone";
        Config := Ptr (Some {| Name := "idm"; Domain := ""; Description := "";
                                  URL := "https://example.test" |}) |},
     None).
Proof.
  assert (discriminant (yaml.unmarshal idm_record) Keystone) as Hd
    by (vm_compute; reflexivity).
  rewrite (UnmarshalYAML_keystone idp _ Keystone Hd) by (left; reflexivity).
  by vm_compute.
Qed.

(** C5.  Two decodes of records with the same singleton discriminant
    ([usso], [usso_oauth] or [agent]) give equal providers, whatever the
    receivers held and whatever else the records hold, and that provider
    has no payload. *)
Theorem singleton_decodes_equal {tables : strconv.UnicodeTables} idp1 idp2 unmarshal1 unmarshal2 ty :
  singletonType ty -> discriminant unmarshal1 ty -> discriminant unmarshal2 ty ->
  exists v,
    UnmarshalYAML idp1 unmarshal1 = (v, None) /\
    UnmarshalYAML idp2 unmarshal2 = (v, None) /\
    Type_ v = ty /\ Config v = Nil.
Proof.
  intros [-> | [-> | ->]] H1 H2.
  - exists UbuntuSSOIdentityProvider. by rewrite !UnmarshalYAML_usso.
  - exists UbuntuSSOOAuthIdentityProvider. by rewrite !UnmarshalYAML_usso_oauth.
  - exists AgentIdentityProvider. by rewrite !UnmarshalYAML_agent.
Qed.

Lemma singleton_decodes_equal_witness :
  (singletonType UbuntuSSO /\
   discriminant (yaml.unmarshal usso_record) UbuntuSSO) /\
  exists v,
    UnmarshalYAML zero_IdentityProvider (yaml.unmarshal usso_record) = (v, None) /\
    UnmarshalYAML agent_receiver (yaml.unmarshal usso_record) = (v, None) /\
    Type_ v = UbuntuSSO /\ Config v = Nil.
Proof.
  assert (singletonType UbuntuSSO) as Hs by (left; reflexivity).
  assert (discriminant (yaml.unmarshal usso_record) UbuntuSSO) as Hd
    by (vm_compute; reflexivity).
  split; [done|].
  exact (singleton_decodes_equal zero_IdentityProvider agent_receiver _ _ _ Hs Hd Hd).
Defined.

(** C6.  Given the same parameters, the three keystone constructors each
    return what the shared builder [newKeystoneIdentityProvider] returns
    for their discriminant: the payloads are the same, the discriminants
    are [keystone], [keystone_userpass] and [keystone_token], and nothing
    else tells the three values apart. *)
Theorem keystone_constructors_differ_in_type_only (p : ptr_KeystoneParams) :
  (KeystoneIdentityProvider p = newKeystoneIdentityProvider "keystone" p /\
   KeystoneUserpassIdentityProvider p = newKeystoneIdentityProvider "keystone_userpass" p /\
   KeystoneTokenIdentityProvider p = newKeystoneIdentityProvider "keystone_token" p) /\
  (Config (KeystoneIdentityProvider p) = Ptr p /\
   Config (KeystoneUserpassIdentityProvider p) = Ptr p /\
   Config (KeystoneTokenIdentityProvider p) = Ptr p) /\
  (Type_ (KeystoneIdentityProvider p) = "keystone" /\
   Type_ (KeystoneUserpassIdentityProvider p) = "keystone_userpass" /\
   Type_ (KeystoneTokenIdentityProvider p) = "keystone_token") /\
  (KeystoneIdentityProvider p <> KeystoneUserpassIdentityProvider p /\
   KeystoneIdentityProvider p <> KeystoneTokenIdentityProvider p /\
   KeystoneUserpassIdentityProvider p <> KeystoneTokenIdentityProvider p).
Proof. repeat split; discriminate. Qed.

(** C7, as amended.  When the structural decode fails, of the [type] field
    or of the payload of a keystone-family record, [UnmarshalYAML] returns
    an error that wraps the failure it was given as its underlying error:
    the failure is reached through [Underlying] and its text ends the text
    of the error returned.  The cause is masked: errgo's [Cause] of the
    error returned is that error itself, not the decode failure.  The
    receiver holds no decoded provider (it is as before, or zeroed). *)
Theorem structural_failure_wrapped {tables : strconv.UnicodeTables} idp unmarshal cause :
  structuralFailure unmarshal cause ->
  exists idp' e,
    UnmarshalYAML idp unmarshal = (idp', Some e) /\
    Wraps e cause /\
    (exists context, Error e = context +:+ ": " +:+ Error cause) /\
    (Cause e = e /\ Cause e <> cause) /\
    (idp' = idp \/ idp' = zero_IdentityProvider).
Proof.
  intros [[t Ht] | (ty & p & Hd & Hk & Hp)].
  - exists idp, (Err "cannot unmarshal identity provider type" (Some cause) None).
    assert (Wraps (Err "cannot unmarshal identity provider type" (Some cause) None)
              cause) as Hw by (by apply Wraps_here).
    split; [by apply (UnmarshalYAML_type_error idp unmarshal t)|].
    split; [done|].
    split; [by exists "cannot unmarshal identity provider type"|].
    split; [|by left]. split; [done|]. by apply Wraps_neq.
  - exists zero_IdentityProvider,
      (Err "cannot unmarshal keystone configuration"
         (Some (Err "" (Some cause) None)) None).
    assert (Wraps (Err "cannot unmarshal keystone configuration"
                     (Some (Err "" (Some cause) None)) None) cause) as Hw
      by (by eapply Wraps_below; [|apply Wraps_here]).
    split.
    { rewrite (UnmarshalYAML_keystone idp unmarshal ty Hd Hk).
      by rewrite (unmarshalKeystone_decode_error ty unmarshal p cause). }
    split; [done|].
    split; [by exists "cannot unmarshal keystone configuration"|].
    split; [|by right]. split; [done|]. by apply Wraps_neq.
Qed.

Lemma structural_failure_wrapped_witness :
  (structuralFailure (yaml.unmarshal sequence_node)
     (yaml.typeError "!!seq into struct") /\
   structuralFailure (yaml.unmarshal mistyped_record)
     (yaml.typeError "!!seq into string")) /\
  (exists idp' e,
     UnmarshalYAML agent_receiver (yaml.unmarshal sequence_node) = (idp', Some e) /\
     Wraps e (yaml.typeError "!!seq into struct") /\
     (exists context,
        Error e = context +:+ ": " +:+ Error (yaml.typeError "!!seq into struct")) /\
     (Cause e = e /\ Cause e <> yaml.typeError "!!seq into struct") /\
     (idp' = agent_receiver \/ idp' = zero_IdentityProvider)) /\
  (exists idp' e,
     UnmarshalYAML agent_receiver (yaml.unmarshal mistyped_record) = (idp', Some e) /\
     Wraps e (yaml.typeError "!!seq into string") /\
     (exists context,
        Error e = context +:+ ": " +:+ Error (yaml.typeError "!!seq into string")) /\
     (Cause e = e /\ Cause e <> yaml.typeError "!!seq into string") /\
     (idp' = agent_receiver \/ idp' = zero_IdentityProvider)).
Proof.
  assert (structuralFailure (yaml.unmarshal sequence_node)
            (yaml.typeError "!!seq into struct")) as H1.
  { left. exists zero_typeOnly. vm_compute; reflexivity. }
  assert (structuralFailure (yaml.unmarshal mistyped_record)
            (yaml.typeError "!!seq into string")) as H2.
  { right. exists Keystone,
      {| Name := "idm"; Domain := ""; Description := ""; URL := "" |}.
    split; [vm_compute; reflexivity|]. split; [left; reflexivity|].
    vm_compute; reflexivity. }
  split; [done|]. split.
  - exact (structural_failure_wrapped agent_receiver _ _ H1).
  - exact (structural_failure_wrapped agent_receiver _ _ H2).
Defined.

(** C7, as written, fails on every structural failure, here a node that is
    no mapping: the error returned wraps the failure, but its cause, as
    errgo has it, is the error returned and not the failure, whatever the
    tables of printable runes. *)
Lemma decode_failure_is_not_the_cause :
  structuralFailure (yaml.unmarshal sequence_node)
    (yaml.typeError "!!seq into struct") /\
  (exists e,
     UnmarshalYAML agent_receiver (yaml.unmarshal sequence_node)
     = (agent_receiver, Some e) /\
     Wraps e (yaml.typeError "!!seq into struct") /\
     Cause e = e /\
     Cause e <> yaml.typeError "!!seq into struct") /\
  ~ (exists tables, @failure_kept_as_cause_as_stated tables).
Proof.
  assert (structuralFailure (yaml.unmarshal sequence_node)
            (yaml.typeError "!!seq into struct")) as Hfail.
  { left. exists zero_typeOnly. vm_compute; reflexivity. }
  split; [done|]. split.
  - exists (Err "cannot unmarshal identity provider type"
              (Some (yaml.typeError "!!seq into struct")) None).
    split; [vm_compute; reflexivity|]. split; [by apply Wraps_here|].
    split; [reflexivity | discriminate].
  - intros [tables Hclaim].
    destruct (Hclaim agent_receiver _ _ Hfail) as (idp' & e & Hrun & _ & Hcause).
    assert (UnmarshalYAML agent_receiver (yaml.unmarshal sequence_node)
            = (agent_receiver,
               Some (Err "cannot unmarshal identity provider type"
                       (Some (yaml.typeError "!!seq into struct")) None))) as Hrun'
      by (vm_compute; reflexivity).
    rewrite Hrun' in Hrun. injection Hrun as <- <-. discriminate Hcause.
Qed.

(** C8.  What an error leaves in the receiver depends on where it arises.
    A keystone-family record that fails, by a structural decode error of
    its payload or by a missing [name] or [url], leaves the zero
    [IdentityProvider]; a failure to decode the [type] field, or a
    discriminant that is not recognised, leaves the receiver as it was. *)
Theorem receiver_after_error {tables : strconv.UnicodeTables} idp unmarshal :
  ((exists cause, payloadDecodeFails unmarshal cause) \/ fieldMissing unmarshal ->
   exists e, UnmarshalYAML idp unmarshal = (zero_IdentityProvider, Some e)) /\
  ((exists cause, typeDecodeFails unmarshal cause) \/ unrecognisedType unmarshal ->
   exists e, UnmarshalYAML idp unmarshal = (idp, Some e)).
Proof.
  split.
  - intros [[cause (ty & p & Hd & Hk & Hp)] | (ty & p & Hd & Hk & Hp & Hmiss)];
      rewrite (UnmarshalYAML_keystone idp unmarshal ty Hd Hk).
    + rewrite (unmarshalKeystone_decode_error ty unmarshal p cause Hp). by eexists.
    + destruct (decide (Name p = "")) as [Hname | Hname].
      * rewrite (unmarshalKeystone_no_name ty unmarshal p Hp Hname). by eexists.
      * destruct Hmiss as [? | Hurl]; [done|].
        rewrite (unmarshalKeystone_no_url ty unmarshal p Hp Hname Hurl). by eexists.
  - intros [[cause [t Ht]] | (ty & Hd & Hty)].
    + rewrite (UnmarshalYAML_type_error idp unmarshal t cause Ht). by eexists.
    + rewrite (UnmarshalYAML_unrecognised idp unmarshal ty Hd Hty). by eexists.
Qed.

Lemma receiver_after_error_witness :
  (fieldMissing (yaml.unmarshal nameless_record) /\
   unrecognisedType (yaml.unmarshal bogus_record) /\
   agent_receiver <> zero_IdentityProvider) /\
  (exists e, UnmarshalYAML agent_receiver (yaml.unmarshal nameless_record)
             = (zero_IdentityProvider, Some e)) /\
  (exists e, UnmarshalYAML agent_receiver (yaml.unmarshal bogus_record)
             = (agent_receiver, Some e)).
Proof.
  assert (fieldMissing (yaml.unmarshal nameless_record)) as H1.
  { exists KeystoneUserpass,
      {| Name := ""; Domain := ""; Description := ""; URL := "https://example.test" |}.
    split; [vm_compute; reflexivity|]. split; [right; left; reflexivity|].
    split; [vm_compute; reflexivity | left; reflexivity]. }
  assert (unrecognisedType (yaml.unmarshal bogus_record)) as H2.
  { exists "bogus". split; [vm_compute; reflexivity|].
    intros [[H | [H | H]] | [H | [H | H]]]; discriminate H. }
  split; [split; [done | split; [done | discriminate]]|]. split.
  - apply (receiver_after_error agent_receiver (yaml.unmarshal nameless_record)).
    by right.
  - apply (receiver_after_error agent_receiver (yaml.unmarshal bogus_record)).
    by right.
Defined.

(** C9.  The constructors do not validate.  For parameters whose [Name] or
    [URL] is empty, each of the three returns a provider carrying those
    very parameters, while every decode of a keystone-family record with
    that payload fails. *)
Theorem constructors_do_not_validate {tables : strconv.UnicodeTables} (p : KeystoneParams) :
  Name p = "" \/ URL p = "" ->
  (KeystoneIdentityProvider (Some p)
   = {| Type_ := "keystone"; Config := Ptr (Some p) |} /\
   KeystoneUserpassIdentityProvider (Some p)
   = {| Type_ := "keystone_userpass"; Config := Ptr (Some p) |} /\
   KeystoneTokenIdentityProvider (Some p)
   = {| Type_ := "keystone_token"; Config := Ptr (Some p) |}) /\
  (forall idp unmarshal ty,
     discriminant unmarshal ty -> keystoneFamily ty -> payload unmarshal p ->
     exists e, UnmarshalYAML idp unmarshal = (zero_IdentityProvider, Some e)).
Proof.
  intros Hmiss. split; [done|]. intros idp unmarshal ty Hd Hk Hp.
  rewrite (UnmarshalYAML_keystone idp unmarshal ty Hd Hk).
  destruct (decide (Name p = "")) as [Hname | Hname].
  - rewrite (unmarshalKeystone_no_name ty unmarshal p Hp Hname). by eexists.
  - destruct Hmiss as [? | Hurl]; [done|].
    rewrite (unmarshalKeystone_no_url ty unmarshal p Hp Hname Hurl). by eexists.
Qed.

Lemma constructors_do_not_validate_witness :
  (Name zero_KeystoneParams = "" \/ URL zero_KeystoneParams = "") /\
  KeystoneIdentityProvider (Some zero_KeystoneParams)
  = {| Type_ := "keystone"; Config := Ptr (Some zero_KeystoneParams) |} /\
  exists e, UnmarshalYAML agent_receiver (yaml.unmarshal bare_keystone_record)
            = (zero_IdentityProvider, Some e).
Proof.
  assert (Name zero_KeystoneParams = "" \/ URL zero_KeystoneParams = "") as Hmiss
    by (left; reflexivity).
  split; [done|].
  destruct (constructors_do_not_validate zero_KeystoneParams Hmiss) as [(Hk & _ & _) Hdec].
  split; [exact Hk|].
  apply (Hdec agent_receiver (yaml.unmarshal bare_keystone_record) Keystone).
  - vm_compute; reflexivity.
  - left; reflexivity.
  - vm_compute; reflexivity.
Defined.

(** C10, as amended.  [Name] is checked before [URL]: a keystone-family
    record whose payload decodes, and in which both are absent or empty,
    fails with the error whose text ends in [name not specified], not with
    the one for [url]. *)
Theorem name_checked_before_url {tables : strconv.UnicodeTables} idp unmarshal ty p :
  discriminant unmarshal ty -> keystoneFamily ty -> payload unmarshal p ->
  Name p = "" -> URL p = "" ->
  exists e,
    UnmarshalYAML idp unmarshal = (zero_IdentityProvider, Some e) /\
    e = MissingField "name" /\ e <> MissingField "url" /\
    Underlying e = Some (Newf "name not specified" []) /\
    Error e = "cannot unmarshal keystone configuration: name not specified".
Proof.
  intros Hd Hk Hp Hname _. exists (MissingField "name").
  rewrite (UnmarshalYAML_keystone idp unmarshal ty Hd Hk).
  by rewrite (unmarshalKeystone_no_name ty unmarshal p Hp Hname).
Qed.

Lemma name_checked_before_url_witness :
  (discriminant (yaml.unmarshal bare_keystone_record) Keystone /\
   keystoneFamily Keystone /\
   payload (yaml.unmarshal bare_keystone_record) zero_KeystoneParams /\
   Name zero_KeystoneParams = "" /\ URL zero_KeystoneParams = "") /\
  exists e,
    UnmarshalYAML agent_receiver (yaml.unmarshal bare_keystone_record)
    = (zero_IdentityProvider, Some e) /\
    e = MissingField "name" /\ e <> MissingField "url" /\
    Underlying e = Some (Newf "name not specified" []) /\
    Error e = "cannot unmarshal keystone configuration: name not specified".
Proof.
  assert (discriminant (yaml.unmarshal bare_keystone_record) Keystone) as Hd
    by (vm_compute; reflexivity).
  assert (keystoneFamily Keystone) as Hk by (left; reflexivity).
  assert (payload (yaml.unmarshal bare_keystone_record) zero_KeystoneParams) as Hp
    by (vm_compute; reflexivity).
  split; [done|].
  exact (name_checked_before_url agent_receiver _ _ _ Hd Hk Hp eq_refl eq_refl).
Defined.

(** C10, as written, fails on the record [type: keystone, domain: [x]]: it
    has neither [name] nor [url], yet the payload does not decode, and the
    error returned is that of the decode, not the missing-name error;
    whatever the tables of printable runes. *)
Lemma decode_error_before_missing_name :
  (domain_mistyped_fields !! "type" = Some (yaml.Scalar Keystone) /\
   keystoneFamily Keystone /\
   absentOrEmpty domain_mistyped_fields "name" /\
   absentOrEmpty domain_mistyped_fields "url") /\
  UnmarshalYAML agent_receiver (yaml.unmarshal domain_mistyped_record)
  = (zero_IdentityProvider,
     Some (Err "cannot unmarshal keystone configuration"
             (Some (Err "" (Some (yaml.typeError "!!seq into string")) None)) None)) /\
  Error (Err "cannot unmarshal keystone configuration"
           (Some (Err "" (Some (yaml.typeError "!!seq into string")) None)) None)
  = "cannot unmarshal keystone configuration: yaml: unmarshal errors: cannot unmarshal !!seq into string" /\
  Err "cannot unmarshal keystone configuration"
    (Some (Err "" (Some (yaml.typeError "!!seq into string")) None)) None
  <> MissingField "name" /\
  ~ (exists tables, @name_before_url_as_stated tables).
Proof.
  assert (domain_mistyped_fields !! "type" = Some (yaml.Scalar Keystone)) as Hty
    by (vm_compute; reflexivity).
  assert (keystoneFamily Keystone) as Hk by (left; reflexivity).
  assert (absentOrEmpty domain_mistyped_fields "name") as Hname
    by (left; vm_compute; reflexivity).
  assert (absentOrEmpty domain_mistyped_fields "url") as Hurl
    by (left; vm_compute; reflexivity).
  split; [done|]. split; [vm_compute; reflexivity|]. split; [reflexivity|].
  split; [discriminate|].
  intros [tables Hclaim].
  destruct (Hclaim agent_receiver _ _ Hty Hk Hname Hurl) as [idp' Hrun].
  assert (UnmarshalYAML agent_receiver (yaml.unmarshal (yaml.Mapping domain_mistyped_fields))
          = (zero_IdentityProvider,
             Some (Err "cannot unmarshal keystone configuration"
                     (Some (Err "" (Some (yaml.typeError "!!seq into string")) None))
                     None))) as Hrun'
    by (vm_compute; reflexivity).
  rewrite Hrun' in Hrun. discriminate Hrun.
Qed.

(** ** Further properties of the decoder *)

(** Every call ends in one of the nine outcomes. *)
Lemma UnmarshalYAML_outcome {tables : strconv.UnicodeTables} idp unmarshal :
  outcome idp unmarshal (UnmarshalYAML idp unmarshal).
Proof.
  destruct (into_typeOnly unmarshal zero_typeOnly) as [[ty] [cause|]] eqn:Ht.
  { rewrite (UnmarshalYAML_type_error idp unmarshal _ cause Ht).
    by eapply outcome_type_error. }
  assert (discriminant unmarshal ty) as Hd by done.
  destruct (decide (ty = UbuntuSSO)) as [-> | ?].
  { rewrite UnmarshalYAML_usso by done. by constructor. }
  destruct (decide (ty = UbuntuSSOOAuth)) as [-> | ?].
  { rewrite UnmarshalYAML_usso_oauth by done. by constructor. }
  destruct (decide (ty = Agent)) as [-> | ?].
  { rewrite UnmarshalYAML_agent by done. by constructor. }
  destruct (decide (keystoneFamily ty)) as [Hk | Hk].
  - rewrite (UnmarshalYAML_keystone idp unmarshal ty Hd Hk).
    destruct (into_KeystoneParams unmarshal zero_KeystoneParams) as [p [cause|]] eqn:Hp.
    { rewrite (unmarshalKeystone_decode_error ty unmarshal p cause Hp).
      by eapply outcome_payload_error. }
    destruct (decide (Name p = "")) as [Hname | Hname].
    { rewrite (unmarshalKeystone_no_name ty unmarshal p Hp Hname).
      by eapply outcome_no_name. }
    destruct (decide (URL p = "")) as [Hurl | Hurl].
    { rewrite (unmarshalKeystone_no_url ty unmarshal p Hp Hname Hurl).
      by eapply outcome_no_url. }
    rewrite (unmarshalKeystone_ok ty unmarshal p Hp Hname Hurl).
    by eapply outcome_keystone.
  - assert (~ recognised ty) as Hty.
    { intros [[? | [? | ?]] | ?]; done. }
    rewrite (UnmarshalYAML_unrecognised idp unmarshal ty Hd Hty).
    by constructor.
Qed.

Lemma discriminant_unique unmarshal ty1 ty2 :
  discriminant unmarshal ty1 -> discriminant unmarshal ty2 -> ty1 = ty2.
Proof. unfold discriminant. intros H1 H2. rewrite H1 in H2. by injection H2. Qed.

Lemma singleton_not_keystoneFamily ty : singletonType ty -> ~ keystoneFamily ty.
Proof. by intros [-> | [-> | ->]] [? | [? | ?]]. Qed.

(** X1.  A decode succeeds exactly when the [type] field decodes to one of
    the six discriminants and the record meets the field requirements of
    that variant: every other record is turned down. *)
Theorem decode_succeeds_iff {tables : strconv.UnicodeTables} idp unmarshal :
  (exists idp', UnmarshalYAML idp unmarshal = (idp', None)) <->
  (exists ty, discriminant unmarshal ty /\ recognised ty /\
              meetsRequirements unmarshal ty).
Proof.
  split.
  - intros [idp' Hrun]. pose proof (UnmarshalYAML_outcome idp unmarshal) as Hout.
    rewrite Hrun in Hout. inversion Hout as
      [ | Hd | Hd | Hd | | | | ty p Hd Hk Hp Hname Hurl | ]; subst.
    + exists UbuntuSSO. split; [done|]. split; [left; by left|].
      intros [? | [? | ?]]; done.
    + exists UbuntuSSOOAuth. split; [done|]. split; [left; right; by left|].
      intros [? | [? | ?]]; done.
    + exists Agent. split; [done|]. split; [left; right; by right|].
      intros [? | [? | ?]]; done.
    + exists ty. split; [done|]. split; [by right|]. intros _. by exists p.
  - intros (ty & Hd & [[-> | [-> | ->]] | Hk] & Hreq).
    + eexists. by apply UnmarshalYAML_usso.
    + eexists. by apply UnmarshalYAML_usso_oauth.
    + eexists. by apply UnmarshalYAML_agent.
    + destruct (Hreq Hk) as (p & Hp & Hname & Hurl).
      rewrite (UnmarshalYAML_keystone idp unmarshal ty Hd Hk).
      rewrite (unmarshalKeystone_ok ty unmarshal p Hp Hname Hurl). by eexists.
Qed.

(** X2.  Whatever a decode returns without error is well formed: a
    singleton discriminant with no payload, or a keystone-family one with a
    payload whose [Name] and [URL] are not empty.  (The constructors give no
    such guarantee.) *)
Theorem decoded_provider_wellFormed {tables : strconv.UnicodeTables} idp unmarshal idp' :
  UnmarshalYAML idp unmarshal = (idp', None) -> wellFormed idp'.
Proof.
  intros Hrun. pose proof (UnmarshalYAML_outcome idp unmarshal) as Hout.
  rewrite Hrun in Hout. inversion Hout as
    [ | Hd | Hd | Hd | | | | ty p Hd Hk Hp Hname Hurl | ]; subst.
  - left. split; [by left | done].
  - left. split; [right; by left | done].
  - left. split; [right; by right | done].
  - right. split; [done|]. by exists p.
Qed.

Lemma decoded_provider_wellFormed_witness :
  UnmarshalYAML agent_receiver (yaml.unmarshal full_record)
  = (KeystoneUserpassIdentityProvider (Some full_params), None) /\
  wellFormed (KeystoneUserpassIdentityProvider (Some full_params)).
Proof.
  assert (UnmarshalYAML agent_receiver (yaml.unmarshal full_record)
          = (KeystoneUserpassIdentityProvider (Some full_params), None)) as Hrun
    by (vm_compute; reflexivity).
  split; [done|].
  exact (decoded_provider_wellFormed agent_receiver _ _ Hrun).
Defined.

(** X3.  Decoding and constructing agree: a keystone-family record that
    decodes to valid parameters [p] yields what the constructor of the
    package for its discriminant returns on a pointer to [p]. *)
Theorem decode_agrees_with_constructor {tables : strconv.UnicodeTables} idp unmarshal ty p :
  discriminant unmarshal ty -> keystoneFamily ty -> payload unmarshal p ->
  Name p <> "" -> URL p <> "" ->
  exists v, constructorFor ty (Some p) = Some v /\
            UnmarshalYAML idp unmarshal = (v, None).
Proof.
  intros Hd Hk Hp Hname Hurl.
  rewrite (UnmarshalYAML_keystone idp unmarshal ty Hd Hk).
  rewrite (unmarshalKeystone_ok ty unmarshal p Hp Hname Hurl).
  exists (newKeystoneIdentityProvider ty (Some p)). split; [|done].
  by destruct Hk as [-> | [-> | ->]].
Qed.

Lemma decode_agrees_with_constructor_witness :
  (discriminant (yaml.unmarshal full_record) KeystoneUserpass /\
   keystoneFamily KeystoneUserpass /\
   payload (yaml.unmarshal full_record) full_params /\
   Name full_params <> "" /\ URL full_params <> "") /\
  exists v, constructorFor KeystoneUserpass (Some full_params) = Some v /\
            UnmarshalYAML agent_receiver (yaml.unmarshal full_record) = (v, None).
Proof.
  assert (discriminant (yaml.unmarshal full_record) KeystoneUserpass) as Hd
    by (vm_compute; reflexivity).
  assert (keystoneFamily KeystoneUserpass) as Hk by (right; left; reflexivity).
  assert (payload (yaml.unmarshal full_record) full_params) as Hp
    by (vm_compute; reflexivity).
  assert (Name full_params <> "") as Hname by discriminate.
  assert (URL full_params <> "") as Hurl by discriminate.
  split; [done|].
  exact (decode_agrees_with_constructor agent_receiver _ _ _ Hd Hk Hp Hname Hurl).
Defined.

(** X4.  What the receiver held before the call has no part in the result:
    the error returned is the same for every receiver, and the value left
    in the receiver is either the same for every receiver or the receiver
    untouched. *)
Theorem receiver_has_no_part {tables : strconv.UnicodeTables} idp1 idp2 unmarshal :
  snd (UnmarshalYAML idp1 unmarshal) = snd (UnmarshalYAML idp2 unmarshal) /\
  (fst (UnmarshalYAML idp1 unmarshal) = fst (UnmarshalYAML idp2 unmarshal) \/
   (fst (UnmarshalYAML idp1 unmarshal) = idp1 /\
    fst (UnmarshalYAML idp2 unmarshal) = idp2)).
Proof.
  destruct (UnmarshalYAML_outcome idp1 unmarshal)
    as [ t cause Ht | Hd | Hd | Hd | ty p cause Hd Hk Hp | ty p Hd Hk Hp Hname
       | ty p Hd Hk Hp Hname Hurl | ty p Hd Hk Hp Hname Hurl | ty Hd Hty ].
  - rewrite (UnmarshalYAML_type_error idp2 unmarshal t cause Ht). split; [done | by right].
  - rewrite (UnmarshalYAML_usso idp2 unmarshal Hd). split; [done | by left].
  - rewrite (UnmarshalYAML_usso_oauth idp2 unmarshal Hd). split; [done | by left].
  - rewrite (UnmarshalYAML_agent idp2 unmarshal Hd). split; [done | by left].
  - rewrite (UnmarshalYAML_keystone idp2 unmarshal ty Hd Hk).
    rewrite (unmarshalKeystone_decode_error ty unmarshal p cause Hp).
    split; [done | by left].
  - rewrite (UnmarshalYAML_keystone idp2 unmarshal ty Hd Hk).
    rewrite (unmarshalKeystone_no_name ty unmarshal p Hp Hname).
    split; [done | by left].
  - rewrite (UnmarshalYAML_keystone idp2 unmarshal ty Hd Hk).
    rewrite (unmarshalKeystone_no_url ty unmarshal p Hp Hname Hurl).
    split; [done | by left].
  - rewrite (UnmarshalYAML_keystone idp2 unmarshal ty Hd Hk).
    rewrite (unmarshalKeystone_ok ty unmarshal p Hp Hname Hurl).
    split; [done | by left].
  - rewrite (UnmarshalYAML_unrecognised idp2 unmarshal ty Hd Hty).
    split; [done | by right].
Qed.

(** X5.  The payload is decoded for the keystone family only.  Two
    callbacks that decode the [type] field alike, to a discriminant outside
    the keystone family or to a failure, give the same result whatever they
    would make of the payload: a [usso] record with an ill-typed [name]
    decodes all the same. *)
Theorem payload_decoded_for_keystone_only {tables : strconv.UnicodeTables} idp unmarshal1 unmarshal2 :
  into_typeOnly unmarshal1 zero_typeOnly = into_typeOnly unmarshal2 zero_typeOnly ->
  (forall ty, discriminant unmarshal1 ty -> ~ keystoneFamily ty) ->
  UnmarshalYAML idp unmarshal1 = UnmarshalYAML idp unmarshal2.
Proof.
  intros Hsame Hnot.
  assert (forall ty, discriminant unmarshal1 ty -> discriminant unmarshal2 ty) as Hd2.
  { unfold discriminant. intros ty Hd. by rewrite <- Hsame. }
  destruct (UnmarshalYAML_outcome idp unmarshal1)
    as [ t cause Ht | Hd | Hd | Hd | ty p cause Hd Hk Hp | ty p Hd Hk Hp Hname
       | ty p Hd Hk Hp Hname Hurl | ty p Hd Hk Hp Hname Hurl | ty Hd Hty ];
    try (by destruct (Hnot ty Hd)).
  - rewrite Hsame in Ht. by rewrite (UnmarshalYAML_type_error idp unmarshal2 t cause Ht).
  - by rewrite (UnmarshalYAML_usso idp unmarshal2 (Hd2 _ Hd)).
  - by rewrite (UnmarshalYAML_usso_oauth idp unmarshal2 (Hd2 _ Hd)).
  - by rewrite (UnmarshalYAML_agent idp unmarshal2 (Hd2 _ Hd)).
  - by rewrite (UnmarshalYAML_unrecognised idp unmarshal2 ty (Hd2 _ Hd) Hty).
Qed.

Lemma payload_decoded_for_keystone_only_witness :
  (into_typeOnly (yaml.unmarshal usso_with_bad_payload) zero_typeOnly
   = into_typeOnly (yaml.unmarshal usso_record) zero_typeOnly /\
   snd (into_KeystoneParams (yaml.unmarshal usso_with_bad_payload) zero_KeystoneParams)
   = Some (yaml.typeError "!!seq into string")) /\
  UnmarshalYAML agent_receiver (yaml.unmarshal usso_with_bad_payload)
  = UnmarshalYAML agent_receiver (yaml.unmarshal usso_record) /\
  UnmarshalYAML agent_receiver (yaml.unmarshal usso_record)
  = (UbuntuSSOIdentityProvider, None).
Proof.
  assert (into_typeOnly (yaml.unmarshal usso_with_bad_payload) zero_typeOnly
          = into_typeOnly (yaml.unmarshal usso_record) zero_typeOnly) as Hsame
    by (vm_compute; reflexivity).
  assert (discriminant (yaml.unmarshal usso_with_bad_payload) UbuntuSSO) as Hd
    by (vm_compute; reflexivity).
  split; [split; [done | vm_compute; reflexivity]|].
  split; [|vm_compute; reflexivity].
  apply (payload_decoded_for_keystone_only agent_receiver _ _ Hsame).
  intros ty Hty. rewrite (discriminant_unique _ _ _ Hty Hd).
  intros [H | [H | H]]; discriminate H.
Defined.

(** X6.  Decoding again changes nothing: a second call with the same
    callback on the receiver as the first call left it returns the same
    error and leaves the same value. *)
Theorem decode_again_changes_nothing {tables : strconv.UnicodeTables} idp unmarshal :
  UnmarshalYAML (fst (UnmarshalYAML idp unmarshal)) unmarshal
  = UnmarshalYAML idp unmarshal.
Proof.
  destruct (receiver_has_no_part (fst (UnmarshalYAML idp unmarshal)) idp unmarshal)
    as [Herr [Hval | [Hval _]]];
    apply injective_projections; done.
Qed.

(** X7.  The text of every error that [UnmarshalYAML] returns begins with
    one of three fixed texts, which tell where the decode failed: on the
    [type] field, in the keystone configuration, or on the discriminant. *)
Theorem error_text_has_prefix {tables : strconv.UnicodeTables} idp unmarshal idp' e :
  UnmarshalYAML idp unmarshal = (idp', Some e) ->
  hasErrorPrefix (Error e) = true.
Proof.
  intros Hrun. pose proof (UnmarshalYAML_outcome idp unmarshal) as Hout.
  rewrite Hrun in Hout. inversion Hout as
    [ t cause Ht | | | | ty p cause Hd Hk Hp | ty p Hd Hk Hp Hname
    | ty p Hd Hk Hp Hname Hurl | | ty Hd Hty ]; subst.
  - unfold hasErrorPrefix, errorPrefixes. cbn [existsb].
    change (Error (Err "cannot unmarshal identity provider type" (Some cause) None))
      with ("cannot unmarshal identity provider type: " +:+ Error cause).
    by rewrite prefix_append.
  - unfold hasErrorPrefix, errorPrefixes. cbn [existsb].
    change (Error (Err "cannot unmarshal keystone configuration"
                     (Some (Err "" (Some cause) None)) None))
      with ("cannot unmarshal keystone configuration: " +:+ Error cause).
    rewrite (prefix_append "cannot unmarshal keystone configuration: ").
    apply orb_true_r.
  - reflexivity.
  - reflexivity.
  - unfold hasErrorPrefix, errorPrefixes. cbn [existsb].
    rewrite UnrecognizedType_Error, (prefix_append "unrecognised identity provider type ").
    by rewrite !orb_true_r.
Qed.

Lemma error_text_has_prefix_witness :
  UnmarshalYAML agent_receiver (yaml.unmarshal mistyped_record)
  = (zero_IdentityProvider,
     Some (Err "cannot unmarshal keystone configuration"
             (Some (Err "" (Some (yaml.typeError "!!seq into string")) None)) None)) /\
  hasErrorPrefix
    (Error (Err "cannot unmarshal keystone configuration"
              (Some (Err "" (Some (yaml.typeError "!!seq into string")) None)) None))
  = true.
Proof.
  assert (UnmarshalYAML agent_receiver (yaml.unmarshal mistyped_record)
          = (zero_IdentityProvider,
             Some (Err "cannot unmarshal keystone configuration"
                     (Some (Err "" (Some (yaml.typeError "!!seq into string")) None))
                     None))) as Hrun
    by (vm_compute; reflexivity).
  split; [done|].
  exact (error_text_has_prefix agent_receiver _ _ _ Hrun).
Defined.

(** X8.  Every error that [UnmarshalYAML] returns is an errgo error with a
    message of its own and with its cause masked: errgo's [Cause] of it is
    the error itself, never the failure of the decode primitive, so a caller
    cannot tell errors apart by their cause. *)
Theorem returned_error_masks_cause {tables : strconv.UnicodeTables} idp unmarshal idp' e :
  UnmarshalYAML idp unmarshal = (idp', Some e) ->
  Cause e = e /\
  exists msg underlying, e = Err msg underlying None /\ msg <> "".
Proof.
  intros Hrun. pose proof (UnmarshalYAML_outcome idp unmarshal) as Hout.
  rewrite Hrun in Hout. inversion Hout as
    [ t cause Ht | | | | ty p cause Hd Hk Hp | ty p Hd Hk Hp Hname
    | ty p Hd Hk Hp Hname Hurl | | ty Hd Hty ]; subst;
    (split; [done|]); by eexists _, _.
Qed.

Lemma returned_error_masks_cause_witness :
  UnmarshalYAML agent_receiver (yaml.unmarshal sequence_node)
  = (agent_receiver,
     Some (Err "cannot unmarshal identity provider type"
             (Some (yaml.typeError "!!seq into struct")) None)) /\
  Cause (Err "cannot unmarshal identity provider type"
           (Some (yaml.typeError "!!seq into struct")) None)
  = Err "cannot unmarshal identity provider type"
      (Some (yaml.typeError "!!seq into struct")) None /\
  exists msg underlying,
    Err "cannot unmarshal identity provider type"
      (Some (yaml.typeError "!!seq into struct")) None
    = Err msg underlying None /\ msg <> "".
Proof.
  assert (UnmarshalYAML agent_receiver (yaml.unmarshal sequence_node)
          = (agent_receiver,
             Some (Err "cannot unmarshal identity provider type"
                     (Some (yaml.typeError "!!seq into struct")) None))) as Hrun
    by (vm_compute; reflexivity).
  split; [done|].
  exact (returned_error_masks_cause agent_receiver _ _ _ Hrun).
Defined.

(** X9.  The three keystone discriminants are validated alike: two
    keystone-family records whose payloads decode alike get the same error,
    or none, and the same payload, whichever of the three discriminants
    each has. *)
Theorem keystone_variants_validated_alike {tables : strconv.UnicodeTables} idp1 idp2 unmarshal1 unmarshal2 ty1 ty2 :
  discriminant unmarshal1 ty1 -> keystoneFamily ty1 ->
  discriminant unmarshal2 ty2 -> keystoneFamily ty2 ->
  into_KeystoneParams unmarshal1 zero_KeystoneParams
  = into_KeystoneParams unmarshal2 zero_KeystoneParams ->
  snd (UnmarshalYAML idp1 unmarshal1) = snd (UnmarshalYAML idp2 unmarshal2) /\
  Config (fst (UnmarshalYAML idp1 unmarshal1))
  = Config (fst (UnmarshalYAML idp2 unmarshal2)).
Proof.
  intros Hd1 Hk1 Hd2 Hk2 Hsame.
  rewrite (UnmarshalYAML_keystone idp1 unmarshal1 ty1 Hd1 Hk1).
  rewrite (UnmarshalYAML_keystone idp2 unmarshal2 ty2 Hd2 Hk2).
  unfold unmarshalKeystone. rewrite <- Hsame.
  destruct (into_KeystoneParams unmarshal1 zero_KeystoneParams) as [p [cause|]];
    [done|].
  destruct (decide (Name p = "")); [done|]. by destruct (decide (URL p = "")).
Qed.

Lemma keystone_variants_validated_alike_witness :
  (discriminant (yaml.unmarshal nameless_record) KeystoneUserpass /\
   keystoneFamily KeystoneUserpass /\
   discriminant (yaml.unmarshal nameless_token_record) KeystoneToken /\
   keystoneFamily KeystoneToken /\
   into_KeystoneParams (yaml.unmarshal nameless_record) zero_KeystoneParams
   = into_KeystoneParams (yaml.unmarshal nameless_token_record) zero_KeystoneParams) /\
  snd (UnmarshalYAML agent_receiver (yaml.unmarshal nameless_record))
  = snd (UnmarshalYAML zero_IdentityProvider (yaml.unmarshal nameless_token_record)) /\
  Config (fst (UnmarshalYAML agent_receiver (yaml.unmarshal nameless_record)))
  = Config (fst (UnmarshalYAML zero_IdentityProvider
                   (yaml.unmarshal nameless_token_record))).
Proof.
  assert (discriminant (yaml.unmarshal nameless_record) KeystoneUserpass) as Hd1
    by (vm_compute; reflexivity).
  assert (keystoneFamily KeystoneUserpass) as Hk1 by (right; left; reflexivity).
  assert (discriminant (yaml.unmarshal nameless_token_record) KeystoneToken) as Hd2
    by (vm_compute; reflexivity).
  assert (keystoneFamily KeystoneToken) as Hk2 by (right; right; reflexivity).
  assert (into_KeystoneParams (yaml.unmarshal nameless_record) zero_KeystoneParams
          = into_KeystoneParams (yaml.unmarshal nameless_token_record)
              zero_KeystoneParams) as Hsame
    by (vm_compute; reflexivity).
  split; [done|].
  exact (keystone_variants_validated_alike agent_receiver zero_IdentityProvider
           _ _ _ _ Hd1 Hk1 Hd2 Hk2 Hsame).
Defined.

(** X10.  [unmarshalKeystone] returns a provider or an error, never both:
    with every error comes the zero [IdentityProvider], and a provider
    comes only from a payload that decoded with [Name] and [URL] not empty.
    The type [t] it is given is not checked: it has no part in the error and
    becomes the [Type] of the provider as it is. *)
Theorem unmarshalKeystone_value_or_error {tables : strconv.UnicodeTables} t unmarshal :
  ((exists p, payload unmarshal p /\ Name p <> "" /\ URL p <> "" /\
              unmarshalKeystone t unmarshal
              = ({| Type_ := t; Config := Ptr (Some p) |}, None)) \/
   (exists e, unmarshalKeystone t unmarshal = (zero_IdentityProvider, Some e))) /\
  (forall t', snd (unmarshalKeystone t' unmarshal) = snd (unmarshalKeystone t unmarshal)).
Proof.
  split.
  - destruct (into_KeystoneParams unmarshal zero_KeystoneParams) as [p [cause|]] eqn:Hp.
    { right. rewrite (unmarshalKeystone_decode_error t unmarshal p cause Hp). by eexists. }
    destruct (decide (Name p = "")) as [Hname | Hname].
    { right. rewrite (unmarshalKeystone_no_name t unmarshal p Hp Hname). by eexists. }
    destruct (decide (URL p = "")) as [Hurl | Hurl].
    { right. rewrite (unmarshalKeystone_no_url t unmarshal p Hp Hname Hurl). by eexists. }
    left. exists p. by rewrite (unmarshalKeystone_ok t unmarshal p Hp Hname Hurl).
  - intros t'. unfold unmarshalKeystone.
    destruct (into_KeystoneParams unmarshal zero_KeystoneParams) as [p [cause|]];
      [done|].
    destruct (decide (Name p = "")); [done|]. by destruct (decide (URL p = "")).
Qed.

(** X11.  What a keystone constructor returns is well formed exactly when
    it was given a pointer that is not nil to parameters whose [Name] and
    [URL] are not empty: these, and only these, are the values of the
    constructors that a decode can return too. *)
Theorem constructed_wellFormed_iff (p : ptr_KeystoneParams) :
  let valid := exists q, p = Some q /\ Name q <> "" /\ URL q <> "" in
  (wellFormed (KeystoneIdentityProvider p) <-> valid) /\
  (wellFormed (KeystoneUserpassIdentityProvider p) <-> valid) /\
  (wellFormed (KeystoneTokenIdentityProvider p) <-> valid).
Proof.
  assert (forall ty, keystoneFamily ty ->
            wellFormed (newKeystoneIdentityProvider ty p)
            <-> exists q, p = Some q /\ Name q <> "" /\ URL q <> "") as H.
  { intros ty Hk. unfold wellFormed. cbn [newKeystoneIdentityProvider Type_ Config].
    split.
    - intros [[_ ?] | [_ (q & Hq & Hname & Hurl)]]; [done|].
      exists q. by injection Hq as ->.
    - intros (q & -> & Hname & Hurl). right. split; [done|]. by exists q. }
  cbv zeta. split; [|split]; apply H.
  - by left.
  - right; by left.
  - right; by right.
Qed.
